(** * node_plugin: the pytest [node] fixture and the [Node] connection

    A shallow embedding of [pytest/node_plugin.py].  Python strings that
    name things (hosts, deployment names, commands, cache keys) are
    [string]; dictionaries are finite maps; the keyword arguments of a
    marker are an association list, because their declaration order is
    observable; effects (the pytest cache, the commands run through
    Invoke, the shared configuration dictionaries, the clock) are threaded
    through an explicit state with exceptions. *)

From Stdlib Require Import ZArith NArith List Ascii String Lia Bool Permutation.
From stdpp Require Import base option gmap strings list fin_maps.

Local Open Scope string_scope.
Local Open Scope list_scope.

(** ** Python strings *)

(** [sep.join(l)] *)
Fixpoint join (sep : string) (l : list string) : string :=
  match l with
  | [] => ""
  | x :: rest =>
      match rest with
      | [] => x
      | _ :: _ => x +:+ sep +:+ join sep rest
      end
  end.

(** Truth value of a [str]: the empty string is the only false one. *)
Definition truthy (s : string) : bool :=
  match s with
  | EmptyString => false
  | String _ _ => true
  end.

(** ** The deploy marker and its cache key *)

(** [deploy_marker.kwargs]: keyword name and value, in declaration order. *)
Abbreviation kwargs := (list (string * string)).

(** [deploy_marker.kwargs.values()] *)
Definition values (kw : kwargs) : list string := map snd kw.

(** ["/".join(["node"] + list(filter(None, deploy_marker.kwargs.values())))] *)
Definition cache_key (kw : kwargs) : string :=
  join "/" ("node" :: List.filter truthy (values kw)).

(** A string without the separator character. *)
Fixpoint slash_free (s : string) : Prop :=
  match s with
  | EmptyString => True
  | String c s' => c <> "/"%char /\ slash_free s'
  end.

(** ** Text: code points, whitespace, UTF-8 *)

(** A Python [str] in general is a sequence of code points.  The strings
    above are the special case of code points below 256. *)
Abbreviation text := (list N).

(** [str.isspace] on one code point (the characters [str.strip] removes). *)
Definition is_space (c : N) : bool :=
  ((9 <=? c) && (c <=? 13))%N || ((28 <=? c) && (c <=? 32))%N
  || (c =? 133)%N || (c =? 160)%N || (c =? 5760)%N
  || ((8192 <=? c) && (c <=? 8202))%N
  || (c =? 8232)%N || (c =? 8233)%N || (c =? 8239)%N
  || (c =? 8287)%N || (c =? 12288)%N.

Section Strip.
Context {A : Type} (space : A -> bool).

Fixpoint lstrip_by (l : list A) : list A :=
  match l with
  | [] => []
  | c :: r => if space c then lstrip_by r else l
  end.

Definition rstrip_by (l : list A) : list A := rev (lstrip_by (rev l)).

Definition strip_by (l : list A) : list A := rstrip_by (lstrip_by l).
End Strip.

(** [str.strip()], [str.rstrip()] on text. *)
Definition strip : text -> text := strip_by is_space.
Definition rstrip : text -> text := rstrip_by is_space.

(** [str.strip()] on a string of code points below 256. *)
Definition str_strip (s : string) : string :=
  string_of_list_ascii
    (strip_by (fun c => is_space (N_of_ascii c)) (list_ascii_of_string s)).

(** A continuation byte [10xxxxxx] in the range [lo..hi]; its six payload bits. *)
Definition cont_in (lo hi : N) (b : Byte.byte) : option N :=
  let n := Byte.to_N b in
  if ((lo <=? n) && (n <=? hi))%N then Some (n - 128)%N else None.

Definition cont : Byte.byte -> option N := cont_in 128 191.

(** [bytes.decode("utf-8")] with the default strict error handling: the
    shortest form only, no surrogates, nothing above U+10FFFF.  [None] is
    [UnicodeDecodeError]. *)
Fixpoint utf8_decode (bs : list Byte.byte) : option text :=
  match bs with
  | [] => Some []
  | b0 :: r0 =>
      let n0 := Byte.to_N b0 in
      if (n0 <? 128)%N then cons n0 <$> utf8_decode r0
      else if ((194 <=? n0) && (n0 <=? 223))%N then
        match r0 with
        | b1 :: r1 =>
            match cont b1 with
            | Some c1 => cons ((n0 - 192) * 64 + c1)%N <$> utf8_decode r1
            | None => None
            end
        | _ => None
        end
      else if ((224 <=? n0) && (n0 <=? 239))%N then
        match r0 with
        | b1 :: b2 :: r2 =>
            let lo := if (n0 =? 224)%N then 160%N else 128%N in
            let hi := if (n0 =? 237)%N then 159%N else 191%N in
            match cont_in lo hi b1, cont b2 with
            | Some c1, Some c2 =>
                cons ((n0 - 224) * 4096 + c1 * 64 + c2)%N <$> utf8_decode r2
            | _, _ => None
            end
        | _ => None
        end
      else if ((240 <=? n0) && (n0 <=? 244))%N then
        match r0 with
        | b1 :: b2 :: b3 :: r3 =>
            let lo := if (n0 =? 240)%N then 144%N else 128%N in
            let hi := if (n0 =? 244)%N then 143%N else 191%N in
            match cont_in lo hi b1, cont b2, cont b3 with
            | Some c1, Some c2, Some c3 =>
                cons ((n0 - 240) * 262144 + c1 * 4096 + c2 * 64 + c3)%N
                  <$> utf8_decode r3
            | _, _, _ => None
            end
        | _ => None
        end
      else None
  end.

(** ** Values, JSON, exceptions *)

(** Dictionaries are objects: a value that is a dictionary is a reference
    into the heap, so two names can reach the same one. *)
Abbreviation loc := nat.

Inductive pyval :=
| VNone
| VBool (b : bool)
| VInt (z : Z)
| VStr (s : string)
| VRef (l : loc).

Abbreviation pydict := (gmap string pyval).

(** What [json.loads] returns. *)
#[warnings="-register-all"]
Inductive json :=
| JNull
| JBool (b : bool)
| JNum (z : Z)
| JStr (s : string)
| JArr (items : list json)
| JObj (fields : list (string * json)).

Definition json_truthy (j : json) : bool :=
  match j with
  | JNull => false
  | JBool b => b
  | JNum z => negb (z =? 0)%Z
  | JStr s => truthy s
  | JArr items => match items with [] => false | _ => true end
  | JObj fields => match fields with [] => false | _ => true end
  end.

Fixpoint assoc {V : Type} (k : string) (l : list (string * V)) : option V :=
  match l with
  | [] => None
  | (k', v) :: r => if String.eqb k k' then Some v else assoc k r
  end.

(** The keywords without [k] *)
Definition remove_key {V : Type} (k : string) (l : list (string * V)) : list (string * V) :=
  List.filter (fun kv => negb (String.eqb k kv.1)) l.

(** A Deployment Descriptor, [Dict[str, str]]. *)
Abbreviation descriptor := (gmap string string).

(** Reading a JSON object at the annotated type [Dict[str, str]].  An
    object with a value that is not a string lies outside that type: it is
    refused here, where Python, which does not check annotations, goes on. *)
Fixpoint as_descriptor (fields : list (string * json)) : option descriptor :=
  match fields with
  | [] => Some ∅
  | (k, JStr s) :: r => (fun d => <[k := s]> d) <$> as_descriptor r
  | _ => None
  end.

Inductive exn :=
| NameError (variable : string)
| KeyError (key : string)
| IndexError
| TypeError
| AttributeError
| AssertionError (message : string)
| JSONDecodeError
| UnicodeDecodeError
| FileNotFoundError (path : string)
| UnexpectedExit (command : string)
| RetryError (last_attempt : exn).

(** ** The world the plugin runs in *)

(** [invoke.runners.Result]; [stdout_json] is what [json.loads(stdout)]
    gives, [None] when the output is not JSON. *)
Record Result := mkResult {
  ok : bool;
  stdout : string;
  stdout_json : option json
}.

(** Keyword arguments of a [run] call. *)
Abbreviation run_kwargs := (list (string * pyval)).

Inductive event :=
| Run (command : string) (kw : run_kwargs)
| Call_deploy_vm (name : string) (kw : kwargs)
| Call_delete_vm (name : string).

(** How a command ends: its result and the time it took, in milliseconds. *)
Record Response := mkResponse {
  result : Result;
  took : N
}.

Record World := mkWorld {
  (** the machine and the cloud behind the [az] CLI: the answer to a
      command and its keyword arguments, given everything that happened
      before *)
  cloud : list event -> string -> run_kwargs -> Response;
  (** what happened so far *)
  trace : list event;
  (** [request.config.cache], which may be [None]: the values that pytest
      keeps in a cache directory it can write, one file per key, by the
      path of the file below that directory; a stored value is a
      descriptor or [None] *)
  cache : option (gmap string (option descriptor));
  (** dictionaries by reference *)
  heap : list pydict;
  (** the source of [uuid4()] and how many were drawn *)
  uuids : nat -> string;
  drawn : nat;
  (** a monotonic clock, in milliseconds *)
  now : N;
  (** files on the remote hosts, by host and path, and local files *)
  remote_files : gmap (string * string) (list Byte.byte);
  local_files : gmap string (list Byte.byte)
}.

Definition set_trace (t : list event) (w : World) : World :=
  mkWorld (cloud w) t (cache w) (heap w) (uuids w) (drawn w) (now w)
    (remote_files w) (local_files w).
Definition set_cache (c : option (gmap string (option descriptor))) (w : World) : World :=
  mkWorld (cloud w) (trace w) c (heap w) (uuids w) (drawn w) (now w)
    (remote_files w) (local_files w).
Definition set_heap (h : list pydict) (w : World) : World :=
  mkWorld (cloud w) (trace w) (cache w) h (uuids w) (drawn w) (now w)
    (remote_files w) (local_files w).
Definition set_drawn (n : nat) (w : World) : World :=
  mkWorld (cloud w) (trace w) (cache w) (heap w) (uuids w) n (now w)
    (remote_files w) (local_files w).
Definition set_now (t : N) (w : World) : World :=
  mkWorld (cloud w) (trace w) (cache w) (heap w) (uuids w) (drawn w) t
    (remote_files w) (local_files w).

(** ** Computations: state and exceptions *)

Definition M (A : Type) : Type := World -> (exn + A) * World.

Definition ret {A} (a : A) : M A := fun w => (inr a, w).
Definition raise {A} (e : exn) : M A := fun w => (inl e, w).
Definition bind {A B} (m : M A) (k : A -> M B) : M B :=
  fun w =>
    match m w with
    | (inl e, w') => (inl e, w')
    | (inr a, w') => k a w'
    end.

Declare Scope py_scope.
Delimit Scope py_scope with py.
Notation "x <~ m ;; k" := (bind m (fun x => k))
  (at level 100, m at next level, right associativity) : py_scope.
Notation "m ;;; k" := (bind m (fun _ => k))
  (at level 100, right associativity) : py_scope.
Local Open Scope py_scope.

Definition assert (b : bool) (message : string) : M unit :=
  if b then ret tt else raise (AssertionError message).

Definition log (e : event) : M unit :=
  fun w => (inr tt, set_trace (trace w ++ [e]) w).

(** ** Dictionaries on the heap *)

Definition alloc (d : pydict) : M loc :=
  fun w => (inr (length (heap w)), set_heap (heap w ++ [d]) w).

(** The dictionary a value refers to; anything else is not subscriptable. *)
Definition deref (v : pyval) : M (loc * pydict) :=
  fun w =>
    match v with
    | VRef l =>
        match heap w !! l with
        | Some d => (inr (l, d), w)
        | None => (inl TypeError, w)
        end
    | _ => (inl TypeError, w)
    end.

(** [d[k]] *)
Definition getitem (v : pyval) (k : string) : M pyval :=
  o <~ deref v ;;
  match o.2 !! k with
  | Some x => ret x
  | None => raise (KeyError k)
  end.

(** [d[k] = x] *)
Definition setitem (v : pyval) (k : string) (x : pyval) : M unit :=
  o <~ deref v ;;
  fun w => (inr tt, set_heap (<[o.1 := <[k := x]> o.2]> (heap w)) w).

(** [d.copy()]: a new dictionary with the same keys and the same values. *)
Definition dict_copy (v : pyval) : M pyval :=
  o <~ deref v ;;
  l <~ alloc o.2 ;;
  ret (VRef l).

(** Truth value of a Python value. *)
Definition py_truthy (h : list pydict) (v : pyval) : bool :=
  match v with
  | VNone => false
  | VBool b => b
  | VInt z => negb (z =? 0)%Z
  | VStr s => truthy s
  | VRef l => match h !! l with
              | Some d => bool_decide (d <> ∅)
              | None => false
              end
  end.

(** ** Module level: the shared configuration and the local context *)

(** The inner dictionary of the [config] literal. *)
Definition run_defaults : pydict :=
  {[ "echo" := VBool true; "in_stream" := VBool false; "timeout" := VInt 300 ]}.

(** Evaluating the [config = {"run": {...}}] literal: the inner dictionary
    is built first, the outer one refers to it. *)
Definition build_config : M pyval :=
  run <~ alloc run_defaults ;;
  c <~ alloc {[ "run" := VRef run ]} ;;
  ret (VRef c).

(** The heap once the module is loaded, and the object [config] names. *)
Definition module_heap : list pydict := [run_defaults; {[ "run" := VRef 0%nat ]}].
Definition config : pyval := VRef 1%nat.

(** [invoke_config = invoke.Config(overrides=config)]: what the local
    context is given as its overrides is the dictionary [config] itself. *)
Definition invoke_config_overrides : pyval := config.

(** [Context.run(command, **kw)] of Invoke: the command runs, time passes,
    and a failed command raises unless [warn] is set. *)
Definition Context_run (command : string) (kw : run_kwargs) : M Result :=
  fun w =>
    let r := cloud w (trace w) command kw in
    let w' := set_now (now w + took r)%N (set_trace (trace w ++ [Run command kw]) w) in
    let warn := match assoc "warn" kw with
                | Some v => py_truthy (heap w) v
                | None => false
                end in
    if ok (result r) || warn then (inr (result r), w')
    else (inl (UnexpectedExit command), w').

(** [local.run(...)], the module-level context. *)
Definition local_run (command : string) (kw : run_kwargs) : M Result :=
  Context_run command kw.

(** [json.loads(r.stdout)] *)
Definition json_loads (r : Result) : M json :=
  match stdout_json r with
  | Some j => ret j
  | None => raise JSONDecodeError
  end.

(** [j[k]] on a parsed document *)
Definition json_getitem (j : json) (k : string) : M json :=
  match j with
  | JObj fields =>
      match assoc k fields with
      | Some v => ret v
      | None => raise (KeyError k)
      end
  | _ => raise TypeError
  end.

(** ** The cloud resource functions *)

Definition check_az_cli : M unit :=
  r <~ local_run "az --version" [("warn", VBool true)] ;;
  assert (ok r) "Please install the `az` CLI!" ;;;
  account <~ local_run "az account show" [] ;;
  assert (ok account) "Please `az login`!" ;;;
  sub <~ json_loads account ;;
  is_default <~ json_getitem sub "isDefault" ;;
  assert (json_truthy is_default) "Please `az account set -s <subscription>`!" ;;;
  user <~ json_getitem sub "user" ;;
  _ <~ json_getitem user "name" ;;
  _ <~ json_getitem sub "name" ;;
  ret tt.

Definition create_boot_storage (location : string) : M string :=
  let account := "pytestbootdiag" in
  r <~ local_run "az group exists -n pytest-lisa" [] ;;
  (if String.eqb (str_strip (stdout r)) "false"
   then _ <~ local_run ("az group create -n pytest-lisa --location " +:+ location) [] ;;
        ret tt
   else ret tt) ;;;
  r' <~ local_run ("az storage account show -g pytest-lisa -n " +:+ account)
          [("warn", VBool true)] ;;
  (if negb (ok r')
   then _ <~ local_run ("az storage account create -g pytest-lisa -n " +:+ account) [] ;;
        ret tt
   else ret tt) ;;;
  ret account.

(** The keyword parameters of [deploy_vm] and their defaults. *)
Record deploy_args := mk_deploy_args {
  location : string;
  vm_image : string;
  vm_size : string;
  setup : string;
  networking : string
}.

Definition deploy_defaults : deploy_args :=
  mk_deploy_args "westus2" "UbuntuLTS" "Standard_DS1_v2" "" "".

(** Binding [**deploy_marker.kwargs] to the parameters; [None] is the
    [TypeError] of an unexpected keyword or of a second value for [name]. *)
Fixpoint bind_kwargs (kw : kwargs) (a : deploy_args) : option deploy_args :=
  match kw with
  | [] => Some a
  | (k, v) :: r =>
      if String.eqb k "location" then
        bind_kwargs r (mk_deploy_args v (vm_image a) (vm_size a) (setup a) (networking a))
      else if String.eqb k "vm_image" then
        bind_kwargs r (mk_deploy_args (location a) v (vm_size a) (setup a) (networking a))
      else if String.eqb k "vm_size" then
        bind_kwargs r (mk_deploy_args (location a) (vm_image a) v (setup a) (networking a))
      else if String.eqb k "setup" then
        bind_kwargs r (mk_deploy_args (location a) (vm_image a) (vm_size a) v (networking a))
      else if String.eqb k "networking" then
        bind_kwargs r (mk_deploy_args (location a) (vm_image a) (vm_size a) (setup a) v)
      else None
  end.

(** [deploy_vm(name, **kw)].  The descriptor is read at its annotated type
    [Dict[str, str]]; a document of another shape is a [TypeError] here. *)
Definition deploy_vm (name : string) (kw : kwargs) : M (string * descriptor) :=
  log (Call_deploy_vm name kw) ;;;
  match bind_kwargs kw deploy_defaults with
  | None => raise TypeError
  | Some a =>
      check_az_cli ;;;
      boot_storage <~ create_boot_storage (location a) ;;
      _ <~ local_run ("az group create -n " +:+ name +:+ "-rg --location " +:+ location a) [] ;;
      let vm_command :=
        ([ "az vm create";
          "-g " +:+ name +:+ "-rg";
          "-n " +:+ name;
          "--image " +:+ vm_image a;
          "--size " +:+ vm_size a;
          "--boot-diagnostics-storage " +:+ boot_storage;
          "--generate-ssh-keys" ]
        ++ (if String.eqb (networking a) "SRIOV"
            then ["--accelerated-networking true"] else []))%list in
      r <~ local_run (join " " vm_command) [] ;;
      j <~ json_loads r ;;
      data <~ match j with
              | JObj fields =>
                  match as_descriptor fields with
                  | Some d => ret d
                  | None => raise TypeError
                  end
              | _ => raise TypeError
              end ;;
      match data !! "publicIpAddress" with
      | Some host => ret (host, data)
      | None => raise (KeyError "publicIpAddress")
      end
  end.

Definition delete_vm (name : string) : M unit :=
  log (Call_delete_vm name) ;;;
  _ <~ local_run ("az group delete -n " +:+ name +:+ "-rg --yes") [] ;;
  ret tt.

(** ** Retrying (Tenacity) *)

(** [time.sleep] *)
Definition sleep (t : N) : M unit :=
  fun w => (inr tt, set_now (now w + t)%N w).

(** [wait_exponential(multiplier, max, exp_base, min)]: the wait after the
    attempt with the given number, times in milliseconds.  The first wait
    is the multiplier, every later one [exp_base] times the one before, up
    to [max]. *)
Definition wait_exponential (multiplier max exp_base min : N) (attempt_number : nat) : N :=
  N.max (N.max 0 min) (N.min (multiplier * exp_base ^ N.of_nat (attempt_number - 1)) max).

(** [sys.maxsize / 2] seconds. *)
Definition MAX_WAIT : N := 4611686018427387903500.

(** [stop_after_delay(max_delay)], on the time since the first attempt began. *)
Definition stop_after_delay (max_delay : N) (since_start : N) : bool :=
  (max_delay <=? since_start)%N.

(** The loop of [@retry(wait=..., stop=...)]: call, and after an exception
    either give up with [RetryError] around the last attempt or sleep and
    call again.  The loop has no bound of its own, hence the fuel; [None]
    is a loop that is still running when the fuel is used up. *)
Fixpoint retry_loop {A} (fuel : nat) (wait : nat -> N) (stop : N -> bool)
    (fn : M A) (start_time : N) (attempt_number : nat) (w : World)
  : option ((exn + A) * World) :=
  match fuel with
  | O => None
  | S fuel' =>
      match fn w with
      | (inr a, w1) => Some (inr a, w1)
      | (inl e, w1) =>
          if stop (now w1 - start_time)%N then Some (inl (RetryError e), w1)
          else retry_loop fuel' wait stop fn start_time (S attempt_number)
                 (snd (sleep (wait attempt_number) w1))
      end
  end.

Definition retry {A} (fuel : nat) (wait : nat -> N) (stop : N -> bool) (fn : M A)
  : World -> option ((exn + A) * World) :=
  fun w => retry_loop fuel wait stop fn (now w) 1 w.

(** ** The Node class *)

Module Node.

(** A [fabric.Connection] with a name and a descriptor. *)
Record t := mk {
  host : string;
  config : pyval;
  inline_ssh_env : bool;
  name : string;
  data : descriptor
}.

(** The keywords that Invoke's [run] takes: the options of its [run]
    configuration and [timeout]. *)
Definition run_options : list string :=
  ["asynchronous"; "disown"; "dry"; "echo"; "echo_format"; "echo_stdin"; "encoding";
   "env"; "err_stream"; "fallback"; "hide"; "in_stream"; "out_stream"; "pty";
   "replace_env"; "shell"; "warn"; "watchers"; "timeout"].

(** How [Context.run(self, command, **kwargs)] binds its arguments: the
    command comes by position or, as a string, by keyword, once; the other
    keywords are left for the options.  [None] is a [TypeError]. *)
Definition bind_run (args : list string) (kw : run_kwargs) : option (string * run_kwargs) :=
  match args, assoc "command" kw with
  | [command], None => Some (command, kw)
  | [], Some (VStr command) => Some (command, remove_key "command" kw)
  | _, _ => None
  end.

(** [super(Connection, self).run(replace_env=False, env={}, *args, **kwargs)]:
    Invoke's own [run].  A keyword given twice is a [TypeError], and so is,
    inside [run], a keyword that is not one of its options; neither runs
    anything. *)
Definition local (self : t) (args : list string) (kw : run_kwargs) : M Result :=
  env <~ alloc ∅ ;;
  match assoc "replace_env" kw, assoc "env" kw with
  | None, None =>
      match bind_run args kw with
      | Some (command, options) =>
          if forallb (fun k => existsb (String.eqb k) run_options) (map fst options)
          then Context_run command
                 (("replace_env", VBool false) :: ("env", VRef env) :: options)
          else raise TypeError
      | None => raise TypeError
      end
  | _, _ => raise TypeError
  end.

(** The decorated body of [get_boot_diagnostics]. *)
Definition get_boot_log (self : t) : M Result :=
  local self
    ["az vm boot-diagnostics get-boot-log -n " +:+ name self
       +:+ " -g " +:+ name self +:+ "-rg"] [].

(** [@retry(wait=wait_exponential(), stop=stop_after_delay(60))] *)
Definition get_boot_diagnostics (fuel : nat) (self : t)
  : World -> option ((exn + Result) * World) :=
  retry fuel (wait_exponential 1000 MAX_WAIT 2 0) (stop_after_delay 60000)
    (get_boot_log self).

Definition platform_restart (self : t) : M Result :=
  local self ["az vm restart -n " +:+ name self +:+ " -g " +:+ name self +:+ "-rg"] [].

(** [self.get(path, buf)] with a file-like [buf]: the content of the
    remote file is appended to the buffer. *)
Definition get (self : t) (path : string) (buf : list Byte.byte) : M (list Byte.byte) :=
  fun w =>
    match remote_files w !! (host self, path) with
    | Some content => (inr (buf ++ content)%list, w)
    | None => (inl (FileNotFoundError path), w)
    end.

Definition cat (self : t) (path : string) : M text :=
  let buf := [] in
  buf <~ get self path buf ;;
  match utf8_decode buf with
  | Some s => ret (strip s)
  | None => raise UnicodeDecodeError
  end.

End Node.

(** ** The fixture *)

Record FixtureRequest := mkRequest {
  (** [request.node.get_closest_marker("deploy")], its [kwargs] *)
  deploy_marker : option kwargs;
  (** [request.node.get_closest_marker("connect")], its [args] *)
  connect_marker : option (list string);
  (** [request.config.getoption("keep_vms")] *)
  keep_vms : bool
}.

(** The local variables that are live across the [yield]; [key] is bound
    on the deploy branch only. *)
Record locals := mkLocals {
  key : option string;
  name : string
}.

Definition uuid4 : M string :=
  fun w => (inr (uuids w (drawn w)), set_drawn (S (drawn w)) w).

(** [assert request.config.cache is not None] *)
Definition assert_cache : M unit :=
  fun w => assert (bool_decide (is_Some (cache w))) "" w.

(** [request.config.cache.get(key, None)] *)
Definition cache_get (k : string) : M (option descriptor) :=
  fun w =>
    match cache w with
    | Some c => (inr (mjoin (c !! k)), w)
    | None => (inl AttributeError, w)
    end.

(** The key read as a path, as pytest does: its components between the
    separators. *)
Fixpoint key_path (k : string) : list string :=
  match k with
  | EmptyString => [""]
  | String c r =>
      if Ascii.eqb c "/" then "" :: key_path r
      else match key_path r with
           | h :: t => String c h :: t
           | [] => [String c ""]
           end
  end.


(** [p] leads to [q] and stops before it. *)
Fixpoint proper_prefix (p q : list string) : bool :=
  match p, q with
  | [], _ :: _ => true
  | x :: p', y :: q' => String.eqb x y && proper_prefix p' q'
  | _, [] => false
  end.

(** The file of [k] cannot be created next to the files that are there:
    the file of a stored key stands where a directory is needed, or the
    path of [k] is a directory, one that leads to the file of a stored
    key. *)
Definition cache_blocked (c : gmap string (option descriptor)) (k : string) : bool :=
  existsb
    (fun k' => proper_prefix (key_path k') (key_path k)
               || proper_prefix (key_path k) (key_path k'))
    (map fst (map_to_list c)).

(** What [set] leaves in the cache.  The file of the key is written when it
    is there already or can be created; otherwise pytest warns, writes
    nothing and returns. *)
Definition cache_store (c : gmap string (option descriptor)) (k : string)
    (v : option descriptor) : gmap string (option descriptor) :=
  if bool_decide (is_Some (c !! k)) || negb (cache_blocked c k) then <[k := v]> c else c.

(** [request.config.cache.set(key, value)] *)
Definition cache_set (k : string) (v : option descriptor) : M unit :=
  fun w =>
    match cache w with
    | Some c => (inr tt, set_cache (Some (cache_store c k v)) w)
    | None => (inl AttributeError, w)
    end.

(** Truth value of what the cache returned: [None] and the empty
    dictionary are false. *)
Definition data_truthy (d : option descriptor) : bool :=
  match d with
  | Some d => bool_decide (d <> ∅)
  | None => false
  end.

(** [data[k]] on a descriptor *)
Definition data_getitem (d : descriptor) (k : string) : M string :=
  match d !! k with
  | Some v => ret v
  | None => raise (KeyError k)
  end.

(** The environment given to remote commands. *)
Definition PATH_env : pydict :=
  {[ "PATH" := VStr "/sbin:/usr/sbin:/usr/local/sbin:/bin:/usr/bin:/usr/local/bin" ]}.

(** The [if deploy_marker: ... elif connect_marker: ... else: ...] block:
    the values of [key] (when bound), [name], [host] and [data] after it. *)
Definition select_target (request : FixtureRequest)
  : M (option string * string * string * descriptor) :=
  match deploy_marker request with
  | Some kw =>
      let key := cache_key kw in
      assert_cache ;;;
      cached <~ cache_get key ;;
      data <~ (if data_truthy cached then ret (default ∅ cached)
               else
                 u <~ uuid4 ;;
                 let name := "pytest-" +:+ u in
                 r <~ deploy_vm name kw ;;
                 let data := <["host" := r.1]> (<["name" := name]> r.2) in
                 cache_set key (Some data) ;;;
                 ret data) ;;
      name <~ data_getitem data "name" ;;
      host <~ data_getitem data "host" ;;
      ret (Some key, name, host, data)
  | None =>
      match connect_marker request with
      | Some args =>
          match args with
          | host :: _ => ret (None, "pre-deployed:" +:+ host, host, ∅)
          | [] => raise IndexError
          end
      | None => ret (None, "localhost", "localhost", ∅)
      end
  end.

(** [cfg["run"]["env"]], as a dictionary. *)
Definition run_env (cfg : pyval) : M pydict :=
  run <~ getitem cfg "run" ;;
  env <~ getitem run "env" ;;
  o <~ deref env ;;
  ret o.2.

(** The configured connection that is yielded. *)
Definition open_node (v : option string * string * string * descriptor)
  : M (Node.t * locals) :=
  let '(key, name, host, data) := v in
  ssh_config <~ dict_copy config ;;
  env <~ alloc PATH_env ;;
  run <~ getitem ssh_config "run" ;;
  setitem run "env" (VRef env) ;;;
  ret (Node.mk host ssh_config true name data, mkLocals key name).

(** [node], up to and including the [yield]: the node handed to the test
    and the local variables kept for the clean-up. *)
Definition node_setup (request : FixtureRequest) : M (Node.t * locals) :=
  v <~ select_target request ;;
  open_node v.

(** [node], after the [yield]: the clean-up. *)
Definition node_teardown (request : FixtureRequest) (l : locals) : M unit :=
  if negb (keep_vms request) then
    k <~ match key l with
         | Some k => ret k
         | None => raise (NameError "key")
         end ;;
    if truthy k then
      delete_vm (name l) ;;;
      assert_cache ;;;
      cache_set k None
    else ret tt
  else ret tt.

(** ** Predicates used in the statements *)

(** The module-level [config] is as the module left it: a dictionary whose
    ["run"] entry is a dictionary. *)
Definition config_ok (w : World) : Prop :=
  exists outer r inner,
    heap w !! 1%nat = Some outer /\ outer !! "run" = Some (VRef r)
    /\ heap w !! r = Some inner.

Definition is_run (e : event) : bool :=
  match e with Run _ _ => true | _ => false end.

Definition is_deploy_call (e : event) : bool :=
  match e with Call_deploy_vm _ _ => true | _ => false end.


(** A step of the command line only: commands were run and time passed,
    nothing else changed. *)
Definition cli_step (w w' : World) : Prop :=
  cloud w' = cloud w /\ cache w' = cache w /\ heap w' = heap w
  /\ uuids w' = uuids w /\ drawn w' = drawn w
  /\ remote_files w' = remote_files w /\ local_files w' = local_files w
  /\ (now w <= now w')%N
  /\ exists evs, trace w' = (trace w ++ evs)%list /\ forallb is_run evs = true.

(** Every run of [m] relates the world before to the world after by [R],
    whether it returns or raises. *)
Definition preserves {A} (R : World -> World -> Prop) (m : M A) : Prop :=
  forall w, R w (m w).2.

(** The heap after [open_node]: the copy of the outer dictionary and the
    environment are new objects, and the ["env"] entry is written into the
    dictionary that [config["run"]] already was. *)
Definition opened_heap (h : list pydict) (outer : pydict) (r : loc) (inner : pydict)
  : list pydict :=
  <[r := <["env" := VRef (S (length h))]> inner]> (h ++ [outer; PATH_env])%list.

(** The keyword parameters [deploy_vm] accepts besides [name]. *)
Definition deploy_keywords : list string :=
  ["location"; "vm_image"; "vm_size"; "setup"; "networking"].

(** A trace entry that is not a command given an [env] or a [replace_env]
    of its own. *)
Definition no_env (e : event) : bool :=
  match e with
  | Run _ kw =>
      match assoc "env" kw, assoc "replace_env" kw with
      | None, None => true
      | _, _ => false
      end
  | _ => true
  end.

(** Only such entries were added to the trace. *)
Definition plain_step (w w' : World) : Prop :=
  exists evs, trace w' = trace w ++ evs /\ forallb no_env evs = true.

(** What a remote [run] on a node gets as its environment when the caller
    gives none: [config.run.env] of the node's configuration. *)
Definition remote_env (self : Node.t) : M pydict := run_env (Node.config self).

(** ** Sample worlds *)

(** A cloud in which every command succeeds: [az account show] names a
    default subscription, [az vm create] answers with an address. *)
Definition sample_cloud (_ : list event) (command : string) (_ : run_kwargs) : Response :=
  if String.prefix "az vm create" command then
    mkResponse
      (mkResult true ""
         (Some (JObj [("publicIpAddress", JStr "203.0.113.5"); ("location", JStr "westus2")])))
      90000
  else if String.eqb command "az account show" then
    mkResponse
      (mkResult true ""
         (Some (JObj [("isDefault", JBool true); ("name", JStr "lab");
                      ("user", JObj [("name", JStr "tester")])])))
      500
  else mkResponse (mkResult true "" None) 500.


(** A cloud whose first two commands fail. *)
Definition flaky_cloud (t : list event) (command : string) (kw : run_kwargs) : Response :=
  if (length t <? 2)%nat then mkResponse (mkResult false "" None) 500
  else mkResponse (mkResult true "boot log" None) 500.

Definition sample_uuids (n : nat) : string :=
  string_of_list_ascii (repeat "a"%char (S n)).

Definition sample_descriptor : descriptor :=
  {[ "name" := "pytest-1234"; "host" := "198.51.100.7" ]}.

(** The module just loaded, an empty cache, no file but one on the host
    ["203.0.113.5"]. *)
Definition sample_world : World :=
  mkWorld sample_cloud [] (Some ∅) module_heap sample_uuids 0 0
    {[ ("203.0.113.5", "/etc/hostname") := [Byte.x20; Byte.x76; Byte.x6d; Byte.x0a] ]} ∅.

Definition sample_deploy : kwargs := [("vm_image", "UbuntuLTS"); ("networking", "SRIOV")].

(** The same with a descriptor cached for [sample_deploy]. *)
Definition cached_world : World :=
  set_drawn 3 (set_cache (Some {[ cache_key sample_deploy := Some sample_descriptor ]}) sample_world).


(** A cloud in which every command fails after half a second. *)
Definition down_cloud (_ : list event) (_ : string) (_ : run_kwargs) : Response :=
  mkResponse (mkResult false "" None) 500.

Definition down_world : World :=
  mkWorld down_cloud [] (Some ∅) module_heap sample_uuids 0 0 ∅ ∅.

(** A node whose boot log is not there yet. *)
Definition flaky_world : World :=
  mkWorld flaky_cloud [] (Some ∅) module_heap sample_uuids 0 0 ∅ ∅.

Definition sample_node : Node.t :=
  Node.mk "198.51.100.7" (VRef 2%nat) true "pytest-1234" sample_descriptor.

(** * Properties *)

(** ** The cache key *)

Lemma join_cons_cons (sep x y : string) (l : list string) :
  join sep (x :: y :: l) = x +:+ sep +:+ join sep (y :: l).
Proof. reflexivity. Qed.

Lemma slash_free_app_slash (x a : string) :
  slash_free (x +:+ String "/" a) -> False.
Proof.
  induction x as [|c x IH]; simpl.
  - intros [Hc _]. congruence.
  - intros [_ Hx]. auto.
Qed.

Lemma app_slash_inj (x y a b : string) :
  slash_free x -> slash_free y ->
  x +:+ String "/" a = y +:+ String "/" b -> x = y /\ a = b.
Proof.
  revert y. induction x as [|c x IH]; intros [|d y] Hx Hy; simpl in *.
  - intros [= ->]. auto.
  - intros [= <- _]. tauto.
  - intros [= -> _]. tauto.
  - intros [= -> Heq]. destruct (IH y) as [-> ->]; tauto.
Qed.

Lemma join_slash_inj (l1 l2 : list string) (x y : string) :
  Forall slash_free (x :: l1) -> Forall slash_free (y :: l2) ->
  join "/" (x :: l1) = join "/" (y :: l2) -> x :: l1 = y :: l2.
Proof.
  revert l2 x y.
  induction l1 as [|z1 r1 IH]; intros [|z2 r2] x y H1 H2.
  - simpl. congruence.
  - rewrite join_cons_cons. cbn [join]. intros ->.
    apply Forall_inv in H1. exfalso. exact (slash_free_app_slash _ _ H1).
  - rewrite join_cons_cons. cbn [join]. intros <-.
    apply Forall_inv in H2. exfalso. exact (slash_free_app_slash _ _ H2).
  - rewrite !join_cons_cons. intros Heq.
    pose proof (Forall_inv H1) as Hx. pose proof (Forall_inv H2) as Hy.
    destruct (app_slash_inj _ _ _ _ Hx Hy Heq) as [-> Hj].
    f_equal. apply IH; [exact (Forall_inv_tail H1) | exact (Forall_inv_tail H2) | exact Hj].
Qed.

Lemma Forall_filter_truthy (P : string -> Prop) (l : list string) :
  Forall P l -> Forall P (List.filter truthy l).
Proof.
  induction 1 as [|v l Hv _ IH]; simpl; [constructor|].
  destruct (truthy v); auto.
Qed.

Lemma slash_free_node : slash_free "node".
Proof. simpl. repeat split; discriminate. Qed.

(** C1 (as amended).  The key is ["node"] followed by the non-empty values
    in declaration order: two intents whose non-empty values form the same
    sequence have the same key, and, when no value contains the separator
    ["/"], two intents with the same key have the same sequence of
    non-empty values (so a differing sequence gives a differing key). *)
Theorem cache_key_by_declaration_order (k1 k2 : kwargs) :
  (List.filter truthy (values k1) = List.filter truthy (values k2) ->
   cache_key k1 = cache_key k2) /\
  (Forall slash_free (values k1) -> Forall slash_free (values k2) ->
   cache_key k1 = cache_key k2 ->
   List.filter truthy (values k1) = List.filter truthy (values k2)).
Proof.
  unfold cache_key. split.
  - intros ->. reflexivity.
  - intros H1 H2 Heq.
    apply join_slash_inj in Heq.
    + congruence.
    + constructor; [exact slash_free_node | by apply Forall_filter_truthy].
    + constructor; [exact slash_free_node | by apply Forall_filter_truthy].
Qed.

Lemma cache_key_by_declaration_order_witness :
  cache_key [("vm_image", "UbuntuLTS"); ("setup", ""); ("vm_size", "Standard_DS1_v2")]
  = cache_key [("vm_image", "UbuntuLTS"); ("vm_size", "Standard_DS1_v2")]
  /\ List.filter truthy (values [("location", "westus2"); ("setup", "")])
     = List.filter truthy (values [("location", "westus2")]).
Proof.
  split.
  - apply (proj1 (cache_key_by_declaration_order
             [("vm_image", "UbuntuLTS"); ("setup", ""); ("vm_size", "Standard_DS1_v2")]
             [("vm_image", "UbuntuLTS"); ("vm_size", "Standard_DS1_v2")])).
    reflexivity.
  - apply (proj2 (cache_key_by_declaration_order
             [("location", "westus2"); ("setup", "")] [("location", "westus2")])).
    + repeat constructor; discriminate.
    + repeat constructor; discriminate.
    + reflexivity.
Defined.

(** C1 (as stated) fails.  The same two parameters declared in the other
    order give another key, and two intents that differ in the values of
    both parameters can share a key. *)
Lemma cache_key_order_counterexample :
  (Permutation [("vm_image", "UbuntuLTS"); ("vm_size", "Standard_DS1_v2")]
               [("vm_size", "Standard_DS1_v2"); ("vm_image", "UbuntuLTS")]
   /\ cache_key [("vm_image", "UbuntuLTS"); ("vm_size", "Standard_DS1_v2")]
      = "node/UbuntuLTS/Standard_DS1_v2"
   /\ cache_key [("vm_size", "Standard_DS1_v2"); ("vm_image", "UbuntuLTS")]
      = "node/Standard_DS1_v2/UbuntuLTS"
   /\ cache_key [("vm_image", "UbuntuLTS"); ("vm_size", "Standard_DS1_v2")]
      <> cache_key [("vm_size", "Standard_DS1_v2"); ("vm_image", "UbuntuLTS")])
  /\ ([("vm_image", "img/a"); ("vm_size", "b")] <> [("vm_image", "img"); ("vm_size", "a/b")]
      /\ cache_key [("vm_image", "img/a"); ("vm_size", "b")]
         = cache_key [("vm_image", "img"); ("vm_size", "a/b")]).
Proof.
  repeat split; try reflexivity; try discriminate.
  apply perm_swap.
Qed.

(** ** Steps of the command line *)

Lemma cli_step_refl (w : World) : cli_step w w.
Proof.
  unfold cli_step. repeat split; try reflexivity.
  exists []. split; [by rewrite app_nil_r | reflexivity].
Qed.

Lemma cli_step_trans (w1 w2 w3 : World) :
  cli_step w1 w2 -> cli_step w2 w3 -> cli_step w1 w3.
Proof.
  intros (Hc & Hk & Hh & Hu & Hd & Hr & Hl & Hn & evs & Ht & He)
         (Hc' & Hk' & Hh' & Hu' & Hd' & Hr' & Hl' & Hn' & evs' & Ht' & He').
  unfold cli_step. repeat split; try congruence.
  - lia.
  - exists (evs ++ evs')%list. split.
    + rewrite Ht', Ht. by rewrite app_assoc.
    + rewrite forallb_app, He, He'. reflexivity.
Qed.

Lemma preserves_ret {A} (a : A) : preserves cli_step (ret a).
Proof. intros w. apply cli_step_refl. Qed.

Lemma preserves_raise {A} (e : exn) : preserves cli_step (@raise A e).
Proof. intros w. apply cli_step_refl. Qed.

Lemma preserves_bind {A B} (m : M A) (k : A -> M B) :
  preserves cli_step m -> (forall a, preserves cli_step (k a)) ->
  preserves cli_step (bind m k).
Proof.
  intros Hm Hk w. unfold bind. specialize (Hm w).
  destruct (m w) as [[e|a] w1]; simpl in *; [exact Hm|].
  eapply cli_step_trans; [exact Hm | apply Hk].
Qed.

Lemma preserves_assert (b : bool) (msg : string) : preserves cli_step (assert b msg).
Proof. destruct b; [apply preserves_ret | apply preserves_raise]. Qed.

Lemma preserves_Context_run (command : string) (kw : run_kwargs) :
  preserves cli_step (Context_run command kw).
Proof.
  intros w. unfold Context_run.
  assert (H : cli_step w
            (set_now (now w + took (cloud w (trace w) command kw))%N
               (set_trace (trace w ++ [Run command kw]) w))).
  { unfold cli_step; simpl. repeat split; try reflexivity; [lia|].
    exists [Run command kw]. split; reflexivity. }
  destruct (ok _ || _); exact H.
Qed.

Lemma preserves_json_loads (r : Result) : preserves cli_step (json_loads r).
Proof.
  unfold json_loads. destruct (stdout_json r); [apply preserves_ret | apply preserves_raise].
Qed.

Lemma preserves_json_getitem (j : json) (k : string) :
  preserves cli_step (json_getitem j k).
Proof.
  unfold json_getitem. destruct j; try apply preserves_raise.
  destruct (assoc k fields); [apply preserves_ret | apply preserves_raise].
Qed.

Create HintDb cli.
#[local] Hint Resolve preserves_ret preserves_raise preserves_assert
  preserves_Context_run preserves_json_loads preserves_json_getitem : cli.

Ltac cli_steps :=
  repeat first
    [ apply preserves_bind; [|intros ?]
    | match goal with |- preserves _ (if ?b then _ else _) => destruct b end
    | match goal with |- preserves _ (match ?x with _ => _ end) => destruct x end
    | solve [auto with cli] ].

Lemma preserves_check_az_cli : preserves cli_step check_az_cli.
Proof. unfold check_az_cli, local_run. cli_steps. Qed.

Lemma preserves_create_boot_storage (location : string) :
  preserves cli_step (create_boot_storage location).
Proof. unfold create_boot_storage, local_run. cli_steps. Qed.

(** A call of [deploy_vm] is logged once; everything after the call event
    is a command, and nothing but the trace and the clock changes. *)
Lemma deploy_vm_step (name : string) (kw : kwargs) (w : World) :
  cli_step (set_trace (trace w ++ [Call_deploy_vm name kw]) w) (deploy_vm name kw w).2.
Proof.
  unfold deploy_vm. unfold bind at 1, log.
  set (w0 := set_trace _ w).
  assert (H : forall (m : M (string * descriptor)), preserves cli_step m -> cli_step w0 (m w0).2)
    by (intros m Hm; apply Hm).
  apply H. clear H.
  destruct (bind_kwargs kw deploy_defaults) as [a|]; [|apply preserves_raise].
  pose proof preserves_check_az_cli. pose proof preserves_create_boot_storage.
  unfold local_run. cli_steps.
Qed.

Lemma delete_vm_step (name : string) (w : World) :
  cli_step (set_trace (trace w ++ [Call_delete_vm name]) w) (delete_vm name w).2.
Proof.
  unfold delete_vm. unfold bind at 1, log.
  set (w0 := set_trace _ w).
  assert (H : forall (m : M unit), preserves cli_step m -> cli_step w0 (m w0).2)
    by (intros m Hm; apply Hm).
  apply H. unfold local_run. cli_steps.
Qed.

(** ** Opening the node: the copy of [config] and the shared [run] dictionary *)

Lemma open_node_eq key name host data w outer r inner :
  heap w !! 1%nat = Some outer -> outer !! "run" = Some (VRef r) ->
  heap w !! r = Some inner ->
  open_node (key, name, host, data) w
  = (inr (Node.mk host (VRef (length (heap w))) true name data, mkLocals key name),
     set_heap (opened_heap (heap w) outer r inner) w).
Proof.
  intros Ho Hr Hi.
  assert (Hlt : r < length (heap w)) by (eapply lookup_lt_Some; eauto).
  unfold open_node, dict_copy, getitem, setitem, bind, deref, config, alloc, ret.
  rewrite Ho. cbn.
  replace (length (heap w ++ [outer])) with (S (length (heap w)))
    by (rewrite length_app; simpl; lia).
  rewrite <- app_assoc. cbn [app].
  rewrite lookup_app_r by lia. rewrite Nat.sub_diag. cbn.
  rewrite Hr. cbn.
  rewrite lookup_app_l by lia. rewrite Hi. cbn.
  reflexivity.
Qed.

Section Opened.
Variables (h : list pydict) (outer inner : pydict) (r : loc).
Hypothesis Hr : outer !! "run" = Some (VRef r).
Hypothesis Hi : h !! r = Some inner.

Lemma opened_inner_lt : r < length h.
Proof. eapply lookup_lt_Some; eauto. Qed.

Lemma opened_lookup_inner :
  opened_heap h outer r inner !! r = Some (<["env" := VRef (S (length h))]> inner).
Proof.
  pose proof opened_inner_lt.
  unfold opened_heap. apply list_lookup_insert_eq.
  rewrite length_app. lia.
Qed.

Lemma opened_lookup_env :
  opened_heap h outer r inner !! S (length h) = Some PATH_env.
Proof.
  pose proof opened_inner_lt.
  unfold opened_heap. rewrite list_lookup_insert_ne by lia.
  rewrite lookup_app_r by lia.
  replace (S (length h) - length h) with 1 by lia. reflexivity.
Qed.

(** A dictionary that had a ["run"] entry still has it, unchanged. *)
Lemma opened_lookup_run (l : loc) (d : pydict) (v : pyval) :
  (h ++ [outer; PATH_env]) !! l = Some d -> d !! "run" = Some v ->
  exists d', opened_heap h outer r inner !! l = Some d' /\ d' !! "run" = Some v.
Proof.
  intros Hl Hv. destruct (decide (l = r)) as [->|Hne].
  - rewrite lookup_app_l in Hl by exact opened_inner_lt.
    assert (d = inner) as -> by congruence.
    eexists. split; [apply opened_lookup_inner|].
    rewrite lookup_insert_ne by discriminate. exact Hv.
  - exists d. split; [|exact Hv].
    unfold opened_heap. rewrite list_lookup_insert_ne by congruence. exact Hl.
Qed.

(** Reading [cfg["run"]["env"]] through any dictionary whose ["run"] entry
    is the shared inner dictionary gives the PATH environment. *)
Lemma run_env_opened (l : loc) (w : World) :
  heap w = opened_heap h outer r inner ->
  (h ++ [outer; PATH_env]) !! l = Some outer ->
  run_env (VRef l) w = (inr PATH_env, w)
  /\ getitem (VRef l) "run" w = (inr (VRef r), w).
Proof.
  intros Hw Hl.
  destruct (opened_lookup_run l outer (VRef r) Hl Hr) as (d' & Hd' & Hrun).
  unfold run_env, getitem, bind, deref, ret. rewrite Hw, Hd'. cbn.
  rewrite Hrun. cbn. rewrite Hw, opened_lookup_inner. cbn.
  rewrite lookup_insert_eq. cbn. rewrite Hw, opened_lookup_env. cbn.
  split; reflexivity.
Qed.
End Opened.

Lemma open_node_spec key name host data (w : World) :
  config_ok w ->
  exists w',
    open_node (key, name, host, data) w
    = (inr (Node.mk host (VRef (length (heap w))) true name data, mkLocals key name), w')
    /\ (cloud w' = cloud w /\ trace w' = trace w /\ cache w' = cache w
        /\ uuids w' = uuids w /\ drawn w' = drawn w /\ now w' = now w
        /\ remote_files w' = remote_files w /\ local_files w' = local_files w)
    /\ config_ok w'
    /\ (exists r, getitem config "run" w' = (inr (VRef r), w')
                  /\ getitem (VRef (length (heap w))) "run" w' = (inr (VRef r), w'))
    /\ run_env config w' = (inr PATH_env, w')
    /\ run_env (VRef (length (heap w))) w' = (inr PATH_env, w').
Proof.
  intros (outer & r & inner & Ho & Hr & Hi).
  assert (Hlt1 : 1 < length (heap w)) by (eapply lookup_lt_Some; eauto).
  exists (set_heap (opened_heap (heap w) outer r inner) w).
  split; [by apply open_node_eq|].
  split; [repeat split|].
  assert (H1 : (heap w ++ [outer; PATH_env]) !! 1 = Some outer)
    by (rewrite lookup_app_l by lia; exact Ho).
  assert (H2 : (heap w ++ [outer; PATH_env]) !! length (heap w) = Some outer)
    by (rewrite lookup_app_r by lia; rewrite Nat.sub_diag; reflexivity).
  set (w' := set_heap _ w).
  destruct (run_env_opened (heap w) outer inner r Hr Hi 1 w' eq_refl H1) as [E1 G1].
  destruct (run_env_opened (heap w) outer inner r Hr Hi _ w' eq_refl H2) as [E2 G2].
  split; [|split; [exists r; split; assumption | split; assumption]].
  destruct (opened_lookup_run (heap w) outer inner r Hi 1 outer (VRef r) H1 Hr)
    as (d' & Hd' & Hrun).
  exists d', r, (<["env" := VRef (S (length (heap w)))]> inner).
  repeat split; [exact Hd' | exact Hrun |].
  apply opened_lookup_inner. exact Hi.
Qed.

(** ** Choosing the target *)


Lemma data_truthy_lookup (d : descriptor) (k v : string) :
  d !! k = Some v -> data_truthy (Some d) = true.
Proof.
  intros Hk. unfold data_truthy. apply bool_decide_eq_true_2.
  intros ->. rewrite lookup_empty in Hk. discriminate.
Qed.

Lemma bind_inr {A B} (m : M A) (k : A -> M B) (w w' : World) (a : A) :
  m w = (inr a, w') -> bind m k w = k a w'.
Proof. intros H. unfold bind. rewrite H. reflexivity. Qed.

Lemma bind_inl {A B} (m : M A) (k : A -> M B) (w w' : World) (e : exn) :
  m w = (inl e, w') -> bind m k w = (inl e, w').
Proof. intros H. unfold bind. rewrite H. reflexivity. Qed.

Lemma assert_cache_some (w : World) c : cache w = Some c -> assert_cache w = (inr tt, w).
Proof. intros H. unfold assert_cache. rewrite H. reflexivity. Qed.

Lemma cache_get_some (w : World) c k :
  cache w = Some c -> cache_get k w = (inr (mjoin (c !! k)), w).
Proof. intros H. unfold cache_get. rewrite H. reflexivity. Qed.

Lemma cache_set_some (w : World) c k v :
  cache w = Some c -> cache_set k v w = (inr tt, set_cache (Some (cache_store c k v)) w).
Proof. intros H. unfold cache_set. rewrite H. reflexivity. Qed.






(** [cache_blocked], by the stored key that is in the way. *)
Lemma cache_blocked_In (c : gmap string (option descriptor)) k :
  cache_blocked c k = true <->
  exists k', is_Some (c !! k')
             /\ (proper_prefix (key_path k') (key_path k)
                 || proper_prefix (key_path k) (key_path k')) = true.
Proof.
  unfold cache_blocked. rewrite existsb_exists. split.
  - intros (k' & Hin & Hp). exists k'. split; [|exact Hp].
    apply in_map_iff in Hin as ([k0 v] & <- & Hin).
    apply list_elem_of_In, elem_of_map_to_list in Hin. cbn. eauto.
  - intros (k' & [v Hv] & Hp). exists k'. split; [|exact Hp].
    apply in_map_iff. exists (k', v). split; [reflexivity|].
    by apply list_elem_of_In, elem_of_map_to_list.
Qed.

(** A hit: nothing runs, the cached descriptor is used as it is. *)
Lemma select_target_hit request kw (w : World) c (d : descriptor) n h :
  deploy_marker request = Some kw ->
  cache w = Some c -> c !! cache_key kw = Some (Some d) ->
  d !! "name" = Some n -> d !! "host" = Some h ->
  select_target request w = (inr (Some (cache_key kw), n, h, d), w).
Proof.
  intros Hm Hc Hk Hn Hh.
  unfold select_target. rewrite Hm.
  rewrite (bind_inr _ _ _ _ _ (assert_cache_some w c Hc)).
  rewrite (bind_inr _ _ _ _ _ (cache_get_some w c _ Hc)).
  rewrite Hk. cbn [mjoin option_join default].
  rewrite (data_truthy_lookup d "name" n Hn).
  unfold ret at 1. unfold bind at 1. cbv [id].
  unfold data_getitem. rewrite Hn, Hh. reflexivity.
Qed.

(** A miss: one identifier is drawn, [deploy_vm] is called with it, and
    what it returns is stored with [name] and [host] merged in. *)
Lemma select_target_miss request kw (w : World) c :
  deploy_marker request = Some kw ->
  cache w = Some c ->
  data_truthy (mjoin (c !! cache_key kw)) = false ->
  select_target request w =
    let name := "pytest-" +:+ uuids w (drawn w) in
    match deploy_vm name kw (set_drawn (S (drawn w)) w) with
    | (inl e, w1) => (inl e, w1)
    | (inr (host, data), w1) =>
        let stored := <["host" := host]> (<["name" := name]> data) in
        (inr (Some (cache_key kw), name, host, stored),
         set_cache (Some (cache_store c (cache_key kw) (Some stored))) w1)
    end.
Proof.
  intros Hm Hc Hk.
  unfold select_target. rewrite Hm.
  rewrite (bind_inr _ _ _ _ _ (assert_cache_some w c Hc)).
  rewrite (bind_inr _ _ _ _ _ (cache_get_some w c _ Hc)).
  rewrite Hk.
  unfold bind at 1. unfold bind at 1. unfold uuid4.
  unfold bind at 1.
  pose proof (deploy_vm_step ("pytest-" +:+ uuids w (drawn w)) kw
                (set_drawn (S (drawn w)) w)) as (_ & Hcache & _).
  cbn [cache set_trace set_drawn] in Hcache.
  cbv zeta.
  destruct (deploy_vm _ kw _) as [[e|[host data]] w1]; [reflexivity|].
  cbn [snd] in Hcache.
  assert (Hc1 : cache w1 = Some c) by congruence.
  unfold bind at 1.
  rewrite (cache_set_some w1 c _ _ Hc1).
  unfold ret at 1. unfold bind at 1.
  unfold data_getitem. rewrite lookup_insert_ne by discriminate.
  rewrite lookup_insert_eq. unfold ret at 1. unfold bind at 1.
  rewrite lookup_insert_eq. reflexivity.
Qed.

Lemma select_target_connect request host rest (w : World) :
  deploy_marker request = None -> connect_marker request = Some (host :: rest) ->
  select_target request w = (inr (None, "pre-deployed:" +:+ host, host, ∅), w).
Proof. intros Hd Hc. unfold select_target. rewrite Hd, Hc. reflexivity. Qed.

Lemma select_target_local request (w : World) :
  deploy_marker request = None -> connect_marker request = None ->
  select_target request w = (inr (None, "localhost", "localhost", ∅), w).
Proof. intros Hd Hc. unfold select_target. rewrite Hd, Hc. reflexivity. Qed.

(** ** The fixture up to the yield *)

Lemma node_setup_hit
    (request : FixtureRequest) (kw : kwargs) (w : World)
    (c : gmap string (option descriptor)) (d : descriptor) (n h : string) :
  deploy_marker request = Some kw ->
  cache w = Some c -> c !! cache_key kw = Some (Some d) ->
  d !! "name" = Some n -> d !! "host" = Some h ->
  config_ok w ->
  exists node l w',
    node_setup request w = (inr (node, l), w')
    /\ Node.name node = n /\ Node.host node = h /\ Node.data node = d
    /\ trace w' = trace w
    /\ List.filter is_deploy_call (trace w') = List.filter is_deploy_call (trace w)
    /\ cache w' = cache w.
Proof.
  intros Hm Hc Hk Hn Hh Hok.
  destruct (open_node_spec (Some (cache_key kw)) n h d w Hok)
    as (w' & Hopen & (_ & Ht & Hca & _) & _).
  eexists _, _, w'. split.
  - unfold node_setup.
    rewrite (bind_inr _ _ _ _ _ (select_target_hit request kw w c d n h Hm Hc Hk Hn Hh)).
    exact Hopen.
  - cbn [Node.name Node.host Node.data]. rewrite Ht, Hca. repeat split.
Qed.

(** C2.  On a cache hit (the key holds a descriptor with its [name] and
    [host]) the fixture yields a node whose name and host are exactly those
    two fields and whose data is the cached descriptor; the trace is
    unchanged, so no [deploy_vm] call (indeed no call at all) was made, and
    the cache is left as it was. *)
Theorem cache_hit_reuses_descriptor
    (request : FixtureRequest) (kw : kwargs) (w : World)
    (c : gmap string (option descriptor)) (d : descriptor) (n h : string) :
  deploy_marker request = Some kw ->
  cache w = Some c -> c !! cache_key kw = Some (Some d) ->
  d !! "name" = Some n -> d !! "host" = Some h ->
  config_ok w ->
  exists node l w',
    node_setup request w = (inr (node, l), w')
    /\ Node.name node = n /\ Node.host node = h /\ Node.data node = d
    /\ trace w' = trace w
    /\ List.filter is_deploy_call (trace w') = List.filter is_deploy_call (trace w)
    /\ cache w' = cache w.
Proof. apply node_setup_hit. Qed.

Lemma config_ok_module (w : World) : heap w = module_heap -> config_ok w.
Proof.
  intros H. exists {[ "run" := VRef 0%nat ]}, 0%nat, run_defaults.
  rewrite H. repeat split; reflexivity.
Qed.

Lemma cache_hit_reuses_descriptor_witness :
  exists node l w',
    node_setup (mkRequest (Some sample_deploy) None false) cached_world = (inr (node, l), w')
    /\ Node.name node = "pytest-1234" /\ Node.host node = "198.51.100.7"
    /\ Node.data node = sample_descriptor
    /\ trace w' = trace cached_world
    /\ List.filter is_deploy_call (trace w') = List.filter is_deploy_call (trace cached_world)
    /\ cache w' = cache cached_world.
Proof.
  apply (cache_hit_reuses_descriptor (mkRequest (Some sample_deploy) None false)
           sample_deploy cached_world
           {[ cache_key sample_deploy := Some sample_descriptor ]}
           sample_descriptor "pytest-1234" "198.51.100.7").
  - reflexivity.
  - reflexivity.
  - apply lookup_singleton_eq.
  - reflexivity.
  - reflexivity.
  - apply config_ok_module. reflexivity.
Defined.

Lemma config_ok_heap (w w' : World) : heap w' = heap w -> config_ok w -> config_ok w'.
Proof. unfold config_ok. intros ->. auto. Qed.







(** The sample run: the cloud answers, so [deploy_vm] returns and the miss
    ends with the new descriptor in the cache. *)
Example sample_miss_deploys :
  deploy_vm "pytest-a" sample_deploy (set_drawn 1 sample_world)
  = (inr ("203.0.113.5",
          {[ "publicIpAddress" := "203.0.113.5"; "location" := "westus2" ]}),
     (deploy_vm "pytest-a" sample_deploy (set_drawn 1 sample_world)).2)
  /\ List.filter is_deploy_call
       (trace (node_setup (mkRequest (Some sample_deploy) None false) sample_world).2)
     = [Call_deploy_vm "pytest-a" sample_deploy].
Proof. split; vm_compute; reflexivity. Qed.

(** The choice of the target never touches the dictionaries. *)
Lemma select_target_heap request (w : World) :
  heap (select_target request w).2 = heap w.
Proof.
  destruct (deploy_marker request) as [kw|] eqn:Hm.
  2:{ unfold select_target. rewrite Hm.
      destruct (connect_marker request) as [[|h rest]|]; reflexivity. }
  destruct (cache w) as [c|] eqn:Hc.
  2:{ unfold select_target. rewrite Hm. unfold bind, assert_cache. rewrite Hc.
      reflexivity. }
  destruct (data_truthy (mjoin (c !! cache_key kw))) eqn:Hk.
  - unfold select_target. rewrite Hm.
    rewrite (bind_inr _ _ _ _ _ (assert_cache_some w c Hc)).
    rewrite (bind_inr _ _ _ _ _ (cache_get_some w c _ Hc)).
    rewrite Hk. unfold ret at 1. unfold bind at 1.
    unfold data_getitem, bind.
    destruct (_ !! "name"); [|reflexivity].
    destruct (_ !! "host"); reflexivity.
  - rewrite (select_target_miss request kw w c Hm Hc Hk). cbv zeta.
    pose proof (deploy_vm_step ("pytest-" +:+ uuids w (drawn w)) kw
                  (set_drawn (S (drawn w)) w)) as (_ & _ & Hh & _).
    destruct (deploy_vm _ kw _) as [[e|[host data]] w1]; exact Hh.
Qed.



Lemma node_setup_inv request (w w' : World) node l :
  node_setup request w = (inr (node, l), w') ->
  exists v w1, select_target request w = (inr v, w1)
               /\ open_node v w1 = (inr (node, l), w').
Proof.
  unfold node_setup, bind. intros H.
  destruct (select_target request w) as [[e|v] w1]; [discriminate|].
  exists v, w1. auto.
Qed.

(** ** The clean-up *)


Lemma node_teardown_unbound request l (w : World) :
  keep_vms request = false -> key l = None ->
  node_teardown request l w = (inl (NameError "key"), w).
Proof. intros H Hk. unfold node_teardown. rewrite H, Hk. reflexivity. Qed.






(** ** Connect-only and local uses *)

(** C5.  A connect-only use with host [h] yields a node named
    ["pre-deployed:"] followed by [h], on host [h], with an empty
    descriptor; the setup makes no call at all (so no provisioning call) and
    leaves the cache alone, and the clean-up, in whatever world it runs,
    changes nothing: no destroy call is made. *)
Theorem connect_only_no_cloud_calls
    (request : FixtureRequest) (h : string) (rest : list string) (w : World) :
  deploy_marker request = None ->
  connect_marker request = Some (h :: rest) ->
  config_ok w ->
  exists node l w',
    node_setup request w = (inr (node, l), w')
    /\ Node.name node = "pre-deployed:" +:+ h
    /\ Node.host node = h
    /\ Node.data node = ∅
    /\ trace w' = trace w
    /\ cache w' = cache w
    /\ forall w2, (node_teardown request l w2).2 = w2.
Proof.
  intros Hd Hc Hok.
  destruct (open_node_spec None ("pre-deployed:" +:+ h) h ∅ w Hok)
    as (w' & Hopen & (_ & Ht & Hca & _) & _).
  eexists _, _, w'. split.
  - unfold node_setup.
    rewrite (bind_inr _ _ _ _ _ (select_target_connect request h rest w Hd Hc)).
    exact Hopen.
  - cbn [Node.name Node.host Node.data]. split_and!; auto.
    intros w2. unfold node_teardown. cbn [key].
    destruct (keep_vms request); reflexivity.
Qed.

Lemma connect_only_no_cloud_calls_witness :
  exists node l w',
    node_setup (mkRequest None (Some ["203.0.113.5"]) false) sample_world
    = (inr (node, l), w')
    /\ Node.name node = "pre-deployed:203.0.113.5"
    /\ Node.host node = "203.0.113.5"
    /\ Node.data node = ∅
    /\ trace w' = trace sample_world
    /\ cache w' = cache sample_world
    /\ forall w2, (node_teardown (mkRequest None (Some ["203.0.113.5"]) false) l w2).2 = w2.
Proof.
  apply (connect_only_no_cloud_calls (mkRequest None (Some ["203.0.113.5"]) false)
           "203.0.113.5" [] sample_world).
  - reflexivity.
  - reflexivity.
  - apply config_ok_module. reflexivity.
Defined.

(** C6.  Without a deploy marker (connect-only with a host, or local) the
    setup succeeds, runs nothing and leaves [key] unbound; with retention
    off the clean-up then evaluates [key] and raises the unbound-variable
    error, in whatever world it runs, without touching that world. *)
Theorem teardown_unbound_key (request : FixtureRequest) (w : World) :
  deploy_marker request = None ->
  connect_marker request <> Some [] ->
  keep_vms request = false ->
  config_ok w ->
  exists node l w',
    node_setup request w = (inr (node, l), w')
    /\ key l = None
    /\ trace w' = trace w
    /\ forall w2, node_teardown request l w2 = (inl (NameError "key"), w2).
Proof.
  intros Hd Hc Hkeep Hok.
  assert (Hsel : exists n h,
             select_target request w = (inr (None, n, h, ∅), w)).
  { destruct (connect_marker request) as [[|h rest]|] eqn:Hcm.
    - congruence.
    - eexists _, _. by eapply select_target_connect.
    - eexists _, _. by apply select_target_local. }
  destruct Hsel as (n & h & Hsel).
  destruct (open_node_spec None n h ∅ w Hok) as (w' & Hopen & (_ & Ht & _) & _).
  eexists _, _, w'. split.
  - unfold node_setup. rewrite (bind_inr _ _ _ _ _ Hsel). exact Hopen.
  - split_and!; auto.
    intros w2. by apply node_teardown_unbound.
Qed.

Lemma teardown_unbound_key_witness :
  exists node l w',
    node_setup (mkRequest None None false) sample_world = (inr (node, l), w')
    /\ key l = None
    /\ trace w' = trace sample_world
    /\ forall w2, node_teardown (mkRequest None None false) l w2
                  = (inl (NameError "key"), w2).
Proof.
  apply (teardown_unbound_key (mkRequest None None false) sample_world).
  - reflexivity.
  - discriminate.
  - reflexivity.
  - apply config_ok_module. reflexivity.
Defined.

(** ** The shared configuration *)

Lemma run_env_module (w : World) :
  heap w = module_heap -> run_env config w = (inl (KeyError "env"), w).
Proof.
  intros Hm.
  assert (H1 : getitem config "run" w = (inr (VRef 0%nat), w)).
  { unfold getitem, bind, deref, config. rewrite Hm. reflexivity. }
  assert (H2 : getitem (VRef 0%nat) "env" w = (inl (KeyError "env"), w)).
  { unfold getitem, bind, deref. rewrite Hm. reflexivity. }
  unfold run_env. rewrite (bind_inr _ _ _ _ _ H1).
  apply (bind_inl _ _ _ _ _ H2).
Qed.

Example build_config_module (w : World) :
  heap w = [] -> build_config w = (inr config, set_heap module_heap w).
Proof.
  intros H. unfold build_config, bind, alloc, ret. cbn. rewrite H. reflexivity.
Qed.

(** The shape of [config] that the statements assume is there once the
    module is loaded and is kept by every use of the fixture. *)
Lemma node_setup_config_ok request (w : World) :
  config_ok w -> config_ok (node_setup request w).2.
Proof.
  intros Hok. unfold node_setup, bind.
  pose proof (select_target_heap request w) as Hh.
  destruct (select_target request w) as [[e|[[[k n] h] d]] w1]; cbn [snd] in *.
  - by apply (config_ok_heap w).
  - assert (Hok1 : config_ok w1) by (by apply (config_ok_heap w)).
    destruct (open_node_spec k n h d w1 Hok1) as (w2 & -> & _ & Hok2 & _).
    exact Hok2.
Qed.

Lemma node_teardown_config_ok request l (w : World) :
  config_ok w -> config_ok (node_teardown request l w).2.
Proof.
  intros Hok. apply (config_ok_heap w); [|exact Hok].
  unfold node_teardown.
  destruct (keep_vms request); [reflexivity|]. cbn [negb].
  destruct (key l) as [k|]; [|reflexivity].
  unfold ret at 1. unfold bind at 1.
  destruct (truthy k); [|reflexivity].
  unfold bind at 1.
  pose proof (delete_vm_step (name l) w) as (_ & _ & Hh & _).
  destruct (delete_vm (name l) w) as [[e|[]] w1]; cbn [snd] in *; [exact Hh|].
  destruct (cache w1) as [c|] eqn:Hc1.
  - rewrite (bind_inr _ _ _ _ _ (assert_cache_some w1 c Hc1)).
    rewrite (cache_set_some w1 c _ _ Hc1). exact Hh.
  - unfold bind, assert_cache. rewrite Hc1. exact Hh.
Qed.

(** C10.  The configuration of the node is a new dictionary (a copy of
    [config]), but its ["run"] entry is the same dictionary as
    [config["run"]]: after a use of the fixture the PATH environment is read
    back through the module-level [config] itself, the dictionary that the
    local context was given, where a freshly loaded module has no ["env"]
    entry. *)
Theorem fixture_mutates_shared_config
    (request : FixtureRequest) (w w' : World) (node : Node.t) (l : locals) :
  config_ok w ->
  node_setup request w = (inr (node, l), w') ->
  Node.config node = VRef (length (heap w))
  /\ Node.config node <> config
  /\ heap w !! length (heap w) = None
  /\ (exists r, getitem config "run" w' = (inr (VRef r), w')
                /\ getitem (Node.config node) "run" w' = (inr (VRef r), w'))
  /\ run_env config w' = (inr PATH_env, w')
  /\ run_env invoke_config_overrides w' = (inr PATH_env, w')
  /\ (heap w = module_heap ->
      run_env invoke_config_overrides w = (inl (KeyError "env"), w)).
Proof.
  intros Hok Hs. unfold invoke_config_overrides.
  destruct (node_setup_inv _ _ _ _ _ Hs) as ([[[k n] h] d] & w1 & Hsel & Hopen).
  assert (Hh : heap w1 = heap w).
  { pose proof (select_target_heap request w) as H. rewrite Hsel in H. exact H. }
  assert (Hok1 : config_ok w1) by (apply (config_ok_heap w); assumption).
  destruct (open_node_spec k n h d w1 Hok1) as (w2 & Hopen' & _ & _ & Hrun & Henv & _).
  rewrite Hopen in Hopen'. injection Hopen' as -> _ <-.
  rewrite Hh in *. cbn [Node.config].
  destruct Hok as (outer & r & inner & Ho & _).
  assert (1 < length (heap w)) by (eapply lookup_lt_Some; eauto).
  split_and!; auto.
  - unfold config. intros [= Heq]. lia.
  - apply lookup_ge_None. lia.
  - intros Hm. by apply run_env_module.
Qed.

Lemma fixture_mutates_shared_config_witness :
  let request := mkRequest None None true in
  let w' := (node_setup request sample_world).2 in
  run_env config sample_world = (inl (KeyError "env"), sample_world)
  /\ run_env config w' = (inr PATH_env, w')
  /\ exists r, getitem config "run" w' = (inr (VRef r), w')
               /\ getitem (VRef 2%nat) "run" w' = (inr (VRef r), w').
Proof.
  intros request w'.
  destruct (fixture_mutates_shared_config request sample_world w'
              (Node.mk "localhost" (VRef 2%nat) true "localhost" ∅)
              (mkLocals None "localhost"))
    as (_ & _ & _ & Hrun & Henv & _ & Hinit).
  - apply config_ok_module. reflexivity.
  - vm_compute. reflexivity.
  - split_and!; [apply Hinit; reflexivity | exact Henv | exact Hrun].
Defined.

(** ** Local commands on a node *)


Lemma deref_world (v : pyval) (w w1 : World) r : deref v w = (r, w1) -> w1 = w.
Proof.
  unfold deref. destruct v; try (intros [= _ <-]; reflexivity).
  destruct (heap w !! l); intros [= _ <-]; reflexivity.
Qed.


Lemma getitem_world (v : pyval) (k : string) (w w1 : World) r :
  getitem v k w = (r, w1) -> w1 = w.
Proof.
  unfold getitem, bind.
  destruct (deref v w) as [[e|o] w2] eqn:Hd; pose proof (deref_world _ _ _ _ Hd) as ->.
  - intros [= _ <-]. reflexivity.
  - destruct (o.2 !! k); intros [= _ <-]; reflexivity.
Qed.



Lemma assoc_In {V : Type} (k : string) (l : list (string * V)) (v : V) :
  assoc k l = Some v -> In k (map fst l).
Proof.
  induction l as [|[k' v'] l IH]; [discriminate|]. cbn [assoc map fst].
  destruct (String.eqb_spec k k') as [->|_]; [left; reflexivity | right; auto].
Qed.

Lemma assoc_only {V : Type} (k k0 : string) (l : list (string * V)) :
  Forall (fun k' => k' = k0) (map fst l) -> k <> k0 -> assoc k l = None.
Proof.
  intros Hall Hne. destruct (assoc k l) as [v|] eqn:H; [|reflexivity].
  apply assoc_In in H. rewrite List.Forall_forall in Hall. apply Hall in H. congruence.
Qed.

Lemma In_assoc {V : Type} (k : string) (l : list (string * V)) :
  In k (map fst l) -> is_Some (assoc k l).
Proof.
  induction l as [|[k' v'] l IH]; [intros []|]. cbn [assoc map fst].
  destruct (String.eqb_spec k k') as [->|Hne]; [eauto|].
  intros [Heq|Hin]; [congruence | auto].
Qed.

(** What [Node.local] does, case by case. *)
Lemma local_eq (self : Node.t) (args : list string) (kw : run_kwargs) (w : World) :
  let w0 := set_heap (heap w ++ [∅]) w in
  Node.local self args kw w =
    match assoc "replace_env" kw, assoc "env" kw, Node.bind_run args kw with
    | None, None, Some (command, options) =>
        if forallb (fun k => existsb (String.eqb k) Node.run_options) (map fst options)
        then Context_run command
               (("replace_env", VBool false) :: ("env", VRef (length (heap w))) :: options)
               w0
        else (inl TypeError, w0)
    | _, _, _ => (inl TypeError, w0)
    end.
Proof.
  cbv zeta. unfold Node.local, bind, alloc.
  destruct (assoc "replace_env" kw), (assoc "env" kw); try reflexivity.
  destruct (Node.bind_run args kw) as [[command options]|]; [|reflexivity].
  destruct (forallb _ _); reflexivity.
Qed.

(** One command and no keyword. *)
Lemma local_one (self : Node.t) (command : string) (w : World) :
  Node.local self [command] [] w
  = Context_run command [("replace_env", VBool false); ("env", VRef (length (heap w)))]
      (set_heap (heap w ++ [∅]) w).
Proof. reflexivity. Qed.

(** The keywords that are left once the command is bound are options of
    [run], when the caller passed nothing but [warn], [command], [env] and
    [replace_env]. *)
Lemma bind_run_options (args : list string) (kw : run_kwargs) command options :
  Forall (fun k => In k ["warn"; "command"; "env"; "replace_env"]) (map fst kw) ->
  Node.bind_run args kw = Some (command, options) ->
  forallb (fun k => existsb (String.eqb k) Node.run_options) (map fst options) = true.
Proof.
  intros Hkeys Hb. apply forallb_forall. intros k Hk.
  assert (Hin : In k (map fst kw) /\ k <> "command").
  { unfold Node.bind_run in Hb.
    destruct args as [|c [|c' args]], (assoc "command" kw) as [[| | |cmd|]|] eqn:Hc;
      try discriminate; injection Hb as <- <-.
    - unfold remove_key in Hk. apply in_map_iff in Hk as ([k0 v0] & <- & Hk).
      apply filter_In in Hk as [Hk Hne]. cbn [fst] in *. split.
      + apply in_map_iff. exists (k0, v0). auto.
      + intros ->. cbn in Hne. discriminate.
    - split; [exact Hk|]. intros ->. apply In_assoc in Hk as [v Hv]. congruence. }
  destruct Hin as [Hin Hne].
  rewrite List.Forall_forall in Hkeys. apply Hkeys in Hin. cbn in Hin.
  destruct Hin as [<-|[<-|[<-|[<-|[]]]]]; try reflexivity. congruence.
Qed.

(** One command and no keyword but [warn]. *)
Lemma local_warn_only (self : Node.t) (command : string) (kw : run_kwargs) (w : World) :
  Forall (fun k => k = "warn") (map fst kw) ->
  Node.local self [command] kw w
  = Context_run command
      (("replace_env", VBool false) :: ("env", VRef (length (heap w))) :: kw)
      (set_heap (heap w ++ [∅]) w).
Proof.
  intros Hkw. rewrite local_eq. cbv zeta.
  rewrite (assoc_only "env" "warn" kw Hkw), (assoc_only "replace_env" "warn" kw Hkw)
    by discriminate.
  unfold Node.bind_run. rewrite (assoc_only "command" "warn" kw Hkw) by discriminate.
  rewrite (bind_run_options [command] kw command kw); [reflexivity | |].
  - eapply Forall_impl; [exact Hkw|]. intros k ->. cbn. auto.
  - unfold Node.bind_run. rewrite (assoc_only "command" "warn" kw Hkw) by discriminate.
    reflexivity.
Qed.

Lemma Context_run_world (command : string) (kw : run_kwargs) (w : World) :
  (Context_run command kw w).2
  = set_now (now w + took (cloud w (trace w) command kw))%N
      (set_trace (trace w ++ [Run command kw]) w).
Proof. unfold Context_run. destruct (ok _ || _); reflexivity. Qed.



(** ** Retrying the boot diagnostics *)

Lemma wait_exponential_default (k : nat) :
  1 <= k <= 7 ->
  wait_exponential 1000 MAX_WAIT 2 0 k = (1000 * 2 ^ N.of_nat (k - 1))%N.
Proof.
  intros Hk.
  assert (Hcases : k = 1 \/ k = 2 \/ k = 3 \/ k = 4 \/ k = 5 \/ k = 6 \/ k = 7) by lia.
  destruct Hcases as [->|[->|[->|[->|[->|[->| ->]]]]]]; reflexivity.
Qed.

(** What a finished loop returned: the value of an attempt, or
    [RetryError] around the exception of an attempt after which the stop
    condition held. *)
Lemma retry_loop_result {A} (fn : M A) (wait : nat -> N) (stop : N -> bool) (start : N) :
  forall fuel k w r w',
    retry_loop fuel wait stop fn start k w = Some (r, w') ->
    match r with
    | inr a => exists wl, fn wl = (inr a, w')
    | inl e => exists last wl,
        e = RetryError last /\ fn wl = (inl last, w')
        /\ stop (now w' - start)%N = true
    end.
Proof.
  induction fuel as [|fuel IH]; intros k w r w'; [discriminate|].
  cbn [retry_loop].
  destruct (fn w) as [[e|a] w1] eqn:Hfn.
  - destruct (stop (now w1 - start)%N) eqn:Hstop.
    + intros [= <- <-]. exists e, w. auto.
    + apply IH.
  - intros [= <- <-]. exists w. exact Hfn.
Qed.

(** With a clock that does not run backwards, the waits add up: the
    attempt with number [k] begins no earlier than the sum of the waits
    before it, and the seventh attempt begins after more than a minute, so
    seven attempts are the most there can be. *)
Lemma retry_loop_terminates {A} (fn : M A) (start : N) :
  (forall w, (now w <= now (fn w).2)%N) ->
  forall n k w fuel,
    k + n = 7 -> 1 <= k -> n < fuel ->
    (start + 1000 * (2 ^ N.of_nat (k - 1) - 1) <= now w)%N ->
    exists out,
      retry_loop fuel (wait_exponential 1000 MAX_WAIT 2 0) (stop_after_delay 60000)
        fn start k w = Some out.
Proof.
  intros Hmono. induction n as [|n IH]; intros k w fuel Hk H1 Hfuel Hnow.
  - destruct fuel as [|fuel]; [lia|]. cbn [retry_loop].
    pose proof (Hmono w) as Hm.
    destruct (fn w) as [[e|a] w1]; cbn [snd] in Hm; [|eauto].
    assert (k = 7) as -> by lia. cbn in Hnow.
    unfold stop_after_delay.
    replace (60000 <=? now w1 - start)%N with true; [eauto|].
    symmetry. apply N.leb_le. lia.
  - destruct fuel as [|fuel]; [lia|]. cbn [retry_loop].
    pose proof (Hmono w) as Hm.
    destruct (fn w) as [[e|a] w1]; cbn [snd] in Hm; [|eauto].
    destruct (stop_after_delay 60000 (now w1 - start)%N); [eauto|].
    apply IH; try lia.
    unfold sleep. cbn [snd now set_now].
    rewrite wait_exponential_default by lia.
    replace (S k - 1) with (S (k - 1)) by lia.
    rewrite Nat2N.inj_succ, N.pow_succ_r'.
    pose proof (N.pow_nonzero 2 (N.of_nat (k - 1))) as Hp.
    lia.
Qed.

Lemma get_boot_log_clock (self : Node.t) (w : World) :
  (now w <= now (Node.get_boot_log self w).2)%N.
Proof.
  unfold Node.get_boot_log. rewrite local_one.
  rewrite Context_run_world. cbn. lia.
Qed.

Lemma retry_loop_fuel_mono {A} (fn : M A) (wait : nat -> N) (stop : N -> bool) (start : N) :
  forall fuel fuel' k w out,
    fuel <= fuel' ->
    retry_loop fuel wait stop fn start k w = Some out ->
    retry_loop fuel' wait stop fn start k w = Some out.
Proof.
  induction fuel as [|fuel IH]; intros fuel' k w out Hle; [discriminate|].
  destruct fuel' as [|fuel']; [lia|].
  cbn [retry_loop].
  destruct (fn w) as [[e|a] w1]; [|auto].
  destruct (stop (now w1 - start)%N); [auto|].
  apply IH. lia.
Qed.

(** C8.  With fuel for seven attempts the decorated [get_boot_diagnostics]
    always ends, and more fuel changes nothing.  It returns what a
    successful attempt returned, or it raises [RetryError] around the
    exception of the last attempt, and then at least 60 seconds have passed
    since the first attempt began.  The waits between attempts double: 1 s,
    2 s, 4 s, ...  A failure after 60 seconds or more ends the loop at once;
    and when the first two attempts fail, each less than 60 seconds after
    the start, and the third succeeds, the result of the third is
    returned. *)
Theorem boot_diagnostics_retry (self : Node.t) (w : World) (fuel : nat) :
  7 <= fuel ->
  let wait := wait_exponential 1000 MAX_WAIT 2 0 in
  (exists r w',
     Node.get_boot_diagnostics fuel self w = Some (r, w')
     /\ Node.get_boot_diagnostics 7 self w = Some (r, w')
     /\ match r with
        | inr a => exists wl, Node.get_boot_log self wl = (inr a, w')
        | inl e => exists last wl,
            e = RetryError last
            /\ Node.get_boot_log self wl = (inl last, w')
            /\ (60000 <= now w' - now w)%N
        end)
  /\ (forall k, 1 <= k <= 7 -> wait k = (1000 * 2 ^ N.of_nat (k - 1))%N)
  /\ (forall e1 w1,
        Node.get_boot_log self w = (inl e1, w1) ->
        (60000 <= now w1 - now w)%N ->
        Node.get_boot_diagnostics fuel self w = Some (inl (RetryError e1), w1))
  /\ (forall e1 w1 e2 w2 r3 w3,
        Node.get_boot_log self w = (inl e1, w1) ->
        (now w1 - now w < 60000)%N ->
        Node.get_boot_log self (sleep (wait 1) w1).2 = (inl e2, w2) ->
        (now w2 - now w < 60000)%N ->
        Node.get_boot_log self (sleep (wait 2) w2).2 = (inr r3, w3) ->
        Node.get_boot_diagnostics fuel self w = Some (inr r3, w3)).
Proof.
  intros Hfuel wait. subst wait. split_and!.
  - destruct (retry_loop_terminates (Node.get_boot_log self) (now w)
                (get_boot_log_clock self) 6 1 w 7) as [[r w'] Hout]; try lia.
    { cbn. lia. }
    exists r, w'. split_and!; [|exact Hout|].
    { unfold Node.get_boot_diagnostics, retry.
      eapply retry_loop_fuel_mono; [exact Hfuel | exact Hout]. }
    pose proof (retry_loop_result _ _ _ _ _ _ _ _ _ Hout) as Hres.
    destruct r as [e|a]; [|exact Hres].
    destruct Hres as (last & wl & -> & Hl & Hstop).
    exists last, wl. split_and!; auto.
    unfold stop_after_delay in Hstop. by apply N.leb_le.
  - apply wait_exponential_default.
  - intros e1 w1 H1 Hlate.
    destruct fuel as [|fuel]; [lia|].
    unfold Node.get_boot_diagnostics, retry. cbn [retry_loop]. rewrite H1.
    unfold stop_after_delay. rewrite (proj2 (N.leb_le _ _) Hlate). reflexivity.
  - intros e1 w1 e2 w2 r3 w3 H1 Ht1 H2 Ht2 H3.
    destruct fuel as [|[|[|fuel]]]; try lia.
    unfold Node.get_boot_diagnostics, retry. cbn [retry_loop]. rewrite H1.
    unfold stop_after_delay at 1. rewrite (proj2 (N.leb_gt _ _) Ht1).
    rewrite H2.
    unfold stop_after_delay at 1. rewrite (proj2 (N.leb_gt _ _) Ht2).
    rewrite H3. reflexivity.
Qed.

Lemma boot_diagnostics_retry_witness :
  exists w3,
    Node.get_boot_diagnostics 7 sample_node flaky_world
    = Some (inr (mkResult true "boot log" None), w3)
    /\ now w3 = 4500%N
    /\ length (trace w3) = 3.
Proof.
  destruct (boot_diagnostics_retry sample_node flaky_world 7) as (_ & _ & _ & H3); [lia|].
  eexists. split.
  - eapply H3.
    + vm_compute. reflexivity.
    + vm_compute. reflexivity.
    + vm_compute. reflexivity.
    + vm_compute. reflexivity.
    + vm_compute. reflexivity.
  - split; vm_compute; reflexivity.
Defined.

(** When the command never succeeds, seven attempts are made, the last one
    66.5 seconds after the start, and the error of that attempt is what
    [RetryError] carries; six attempts are not enough to see the end. *)
Example boot_diagnostics_gives_up :
  (exists w',
     Node.get_boot_diagnostics 7 sample_node down_world
     = Some (inl (RetryError
                    (UnexpectedExit
                       "az vm boot-diagnostics get-boot-log -n pytest-1234 -g pytest-1234-rg")),
             w')
     /\ now w' = 66500%N /\ length (trace w') = 7)
  /\ Node.get_boot_diagnostics 6 sample_node down_world = None.
Proof. split; [eexists; split_and!|]; vm_compute; reflexivity. Qed.


(** ** Reading a remote file *)

Section StripFacts.
Context {A : Type} (space : A -> bool).

Lemma lstrip_by_split (l : list A) :
  exists pre, l = pre ++ lstrip_by space l /\ forallb space pre = true.
Proof.
  induction l as [|c l (pre & Hl & Hpre)]; cbn [lstrip_by].
  - exists []. auto.
  - destruct (space c) eqn:Hc.
    + exists (c :: pre). cbn. rewrite Hc, Hpre. split; [congruence|reflexivity].
    + exists []. auto.
Qed.

Lemma lstrip_by_head (l : list A) (c : A) :
  head (lstrip_by space l) = Some c -> space c = false.
Proof.
  induction l as [|x l IH]; cbn [lstrip_by]; [discriminate|].
  destruct (space x) eqn:Hx; [exact IH|].
  intros [= <-]. exact Hx.
Qed.

(** Stripping on the left keeps the last element of what is left. *)
Lemma lstrip_by_app_keep (l : list A) (c : A) :
  space c = false -> exists x, lstrip_by space (l ++ [c]) = x ++ [c].
Proof.
  intros Hc. induction l as [|y l (x & IH)]; cbn [lstrip_by app].
  - rewrite Hc. exists []. reflexivity.
  - destruct (space y); [eauto|]. exists (y :: l). reflexivity.
Qed.

Lemma rstrip_by_split (l : list A) :
  exists suf, l = rstrip_by space l ++ suf /\ forallb space suf = true.
Proof.
  unfold rstrip_by.
  destruct (lstrip_by_split (rev l)) as (pre & Hl & Hpre).
  exists (rev pre). split.
  - rewrite <- rev_app_distr, <- Hl, rev_involutive. reflexivity.
  - rewrite forallb_forall in *. intros x Hx. apply Hpre. by apply in_rev.
Qed.

Lemma last_rev_head (l : list A) : last (rev l) = head l.
Proof. destruct l as [|x l]; [reflexivity|]. cbn [rev]. apply last_snoc. Qed.

Lemma rstrip_by_last (l : list A) (c : A) :
  last (rstrip_by space l) = Some c -> space c = false.
Proof.
  unfold rstrip_by. rewrite last_rev_head. apply lstrip_by_head.
Qed.

(** Stripping on the right keeps a first element that is not a space. *)
Lemma rstrip_by_head (l : list A) (c : A) :
  head l = Some c -> space c = false -> head (rstrip_by space l) = Some c.
Proof.
  destruct l as [|x l]; [discriminate|]. intros [= ->] Hc.
  unfold rstrip_by. cbn [rev].
  destruct (lstrip_by_app_keep (rev l) c Hc) as (y & ->).
  rewrite rev_app_distr. reflexivity.
Qed.

Lemma rstrip_by_head_inv (l : list A) (c : A) :
  head (rstrip_by space l) = Some c -> head l = Some c.
Proof.
  destruct (rstrip_by_split l) as (suf & Hl & _).
  destruct (rstrip_by space l) as [|x r]; [discriminate|].
  intros [= ->]. rewrite Hl. reflexivity.
Qed.

(** [strip_by] removes a run of spaces at either end and stops, at either
    end, at something that is not a space. *)
Lemma strip_by_spec (l : list A) :
  (exists pre suf,
     l = pre ++ strip_by space l ++ suf
     /\ forallb space pre = true /\ forallb space suf = true)
  /\ (forall c, head (strip_by space l) = Some c -> space c = false)
  /\ (forall c, last (strip_by space l) = Some c -> space c = false).
Proof.
  unfold strip_by.
  destruct (lstrip_by_split l) as (pre & Hl & Hpre).
  destruct (rstrip_by_split (lstrip_by space l)) as (suf & Hr & Hsuf).
  split_and!.
  - exists pre, suf. split_and!; auto. rewrite <- Hr. exact Hl.
  - intros c Hc. apply rstrip_by_head_inv in Hc. by eapply lstrip_by_head.
  - intros c. apply rstrip_by_last.
Qed.
End StripFacts.

Example utf8_decode_samples :
  utf8_decode [Byte.x68; Byte.xc3; Byte.xa9] = Some [104; 233]%N
  /\ utf8_decode [Byte.xe2; Byte.x82; Byte.xac] = Some [8364]%N
  /\ utf8_decode [Byte.xf0; Byte.x9f; Byte.x98; Byte.x80] = Some [128512]%N
  /\ utf8_decode [Byte.xc0; Byte.x80] = None
  /\ utf8_decode [Byte.xed; Byte.xa0; Byte.x80] = None
  /\ utf8_decode [Byte.xf4; Byte.x90; Byte.x80; Byte.x80] = None
  /\ utf8_decode [Byte.xe2; Byte.x82] = None.
Proof. repeat split. Qed.

Example strip_samples :
  strip [32; 9; 104; 105; 32; 104; 111; 10; 13]%N = [104; 105; 32; 104; 111]%N
  /\ strip [160; 8232; 120; 12288]%N = [120]%N
  /\ strip [32; 10]%N = []
  /\ str_strip "false
" = "false".
Proof. repeat split. Qed.

(** C9 (as amended).  For a remote file that exists and holds UTF-8,
    [cat] returns the decoded content with the white space at both ends
    removed: the content is the result between a run of white space before
    and a run of white space after, and the result neither begins nor ends
    with white space.  The world is the same afterwards, so no file was
    made on either side. *)
Theorem cat_strips_both_ends
    (self : Node.t) (path : string) (w : World)
    (content : list Byte.byte) (s : text) :
  remote_files w !! (Node.host self, path) = Some content ->
  utf8_decode content = Some s ->
  Node.cat self path w = (inr (strip s), w)
  /\ local_files (Node.cat self path w).2 = local_files w
  /\ remote_files (Node.cat self path w).2 = remote_files w
  /\ (exists pre suf,
        s = pre ++ strip s ++ suf
        /\ forallb is_space pre = true /\ forallb is_space suf = true)
  /\ (forall c, head (strip s) = Some c -> is_space c = false)
  /\ (forall c, last (strip s) = Some c -> is_space c = false).
Proof.
  intros Hf Hd.
  assert (Hcat : Node.cat self path w = (inr (strip s), w)).
  { unfold Node.cat, Node.get, bind. rewrite Hf. cbn [app]. rewrite Hd. reflexivity. }
  rewrite Hcat. cbn [snd].
  destruct (strip_by_spec is_space s) as (Hsplit & Hhead & Hlast).
  split_and!; auto.
Qed.

Lemma cat_strips_both_ends_witness :
  Node.cat (Node.mk "203.0.113.5" (VRef 2%nat) true "pre-deployed:203.0.113.5" ∅)
    "/etc/hostname" sample_world
  = (inr [118; 109]%N, sample_world).
Proof.
  apply (cat_strips_both_ends
           (Node.mk "203.0.113.5" (VRef 2%nat) true "pre-deployed:203.0.113.5" ∅)
           "/etc/hostname" sample_world
           [Byte.x20; Byte.x76; Byte.x6d; Byte.x0a] [32; 118; 109; 10]%N).
  - vm_compute. reflexivity.
  - reflexivity.
Defined.

(** C9 (as stated) fails.  The file holds a space, ["vm"] and a newline:
    trimming the trailing white space alone would leave [" vm"], but [cat]
    returns ["vm"]. *)
Lemma cat_strips_leading_counterexample :
  remote_files sample_world !! ("203.0.113.5", "/etc/hostname")
  = Some [Byte.x20; Byte.x76; Byte.x6d; Byte.x0a]
  /\ utf8_decode [Byte.x20; Byte.x76; Byte.x6d; Byte.x0a] = Some [32; 118; 109; 10]%N
  /\ rstrip [32; 118; 109; 10]%N = [32; 118; 109]%N
  /\ Node.cat (Node.mk "203.0.113.5" (VRef 2%nat) true "pre-deployed:203.0.113.5" ∅)
       "/etc/hostname" sample_world
     = (inr [118; 109]%N, sample_world)
  /\ [118; 109]%N <> rstrip [32; 118; 109; 10]%N.
Proof.
  split_and!; try (vm_compute; reflexivity).
  vm_compute. discriminate.
Qed.

(** * Further properties of the plugin *)

(** ** The fixture at its edges *)

(** X1.  Without any marker the fixture targets the loop-back host: the
    node is named ["localhost"], its host is ["localhost"], its descriptor
    is empty and [key] stays unbound; nothing runs, nothing is cached and no
    time passes.  It is still an SSH connection, configured like any other:
    inline environment on, with the PATH override as its remote
    environment. *)
Theorem local_default_target (request : FixtureRequest) (w : World) :
  deploy_marker request = None ->
  connect_marker request = None ->
  config_ok w ->
  exists node l w',
    node_setup request w = (inr (node, l), w')
    /\ Node.name node = "localhost" /\ Node.host node = "localhost"
    /\ Node.data node = ∅ /\ Node.inline_ssh_env node = true
    /\ key l = None /\ name l = "localhost"
    /\ trace w' = trace w /\ cache w' = cache w
    /\ now w' = now w /\ drawn w' = drawn w
    /\ remote_env node w' = (inr PATH_env, w').
Proof.
  intros Hd Hc Hok.
  destruct (open_node_spec None "localhost" "localhost" ∅ w Hok)
    as (w' & Hopen & (_ & Ht & Hca & _ & Hdr & Hn & _) & _ & _ & _ & Henv).
  eexists _, _, w'. split.
  - unfold node_setup.
    rewrite (bind_inr _ _ _ _ _ (select_target_local request w Hd Hc)).
    exact Hopen.
  - cbn [Node.name Node.host Node.data Node.inline_ssh_env key name].
    split_and!; auto.
Qed.

Lemma local_default_target_witness :
  exists node l w',
    node_setup (mkRequest None None true) sample_world = (inr (node, l), w')
    /\ Node.name node = "localhost" /\ Node.host node = "localhost"
    /\ Node.data node = ∅ /\ Node.inline_ssh_env node = true
    /\ key l = None /\ name l = "localhost"
    /\ trace w' = trace sample_world /\ cache w' = cache sample_world
    /\ now w' = now sample_world /\ drawn w' = drawn sample_world
    /\ remote_env node w' = (inr PATH_env, w').
Proof.
  apply (local_default_target (mkRequest None None true) sample_world).
  - reflexivity.
  - reflexivity.
  - apply config_ok_module. reflexivity.
Defined.

(** X2.  With a deploy marker but no cache ([request.config.cache] is
    [None]) the setup stops at its assertion before anything else happens:
    no identifier is drawn, nothing runs, the world is as it was. *)
Theorem setup_without_cache (request : FixtureRequest) (kw : kwargs) (w : World) :
  deploy_marker request = Some kw ->
  cache w = None ->
  node_setup request w = (inl (AssertionError ""), w).
Proof.
  intros Hm Hc. unfold node_setup.
  apply bind_inl. unfold select_target. rewrite Hm.
  apply bind_inl. unfold assert_cache. rewrite Hc. reflexivity.
Qed.

Lemma setup_without_cache_witness :
  node_setup (mkRequest (Some sample_deploy) None false) (set_cache None sample_world)
  = (inl (AssertionError ""), set_cache None sample_world).
Proof.
  apply (setup_without_cache (mkRequest (Some sample_deploy) None false) sample_deploy).
  - reflexivity.
  - reflexivity.
Defined.

(** X3.  A connect marker without a host ([connect_marker.args] is empty)
    makes the setup raise [IndexError]; the world is as it was. *)
Theorem connect_without_host (request : FixtureRequest) (w : World) :
  deploy_marker request = None ->
  connect_marker request = Some [] ->
  node_setup request w = (inl IndexError, w).
Proof.
  intros Hd Hc. unfold node_setup.
  apply bind_inl. unfold select_target. rewrite Hd, Hc. reflexivity.
Qed.

Lemma connect_without_host_witness :
  node_setup (mkRequest None (Some []) false) sample_world = (inl IndexError, sample_world).
Proof.
  apply (connect_without_host (mkRequest None (Some []) false) sample_world);
    reflexivity.
Defined.

(** X4.  A cached value that is a non-empty dictionary counts as a hit
    whatever it holds: if it lacks ["name"] the setup raises
    [KeyError "name"], if it has a name but lacks ["host"] it raises
    [KeyError "host"].  In both cases nothing is provisioned to replace the
    entry and the world, the cache included, is as it was. *)
Theorem hit_without_name_or_host
    (request : FixtureRequest) (kw : kwargs) (w : World)
    (c : gmap string (option descriptor)) (d : descriptor) :
  deploy_marker request = Some kw ->
  cache w = Some c -> c !! cache_key kw = Some (Some d) ->
  d <> ∅ ->
  (d !! "name" = None -> node_setup request w = (inl (KeyError "name"), w))
  /\ (forall n, d !! "name" = Some n -> d !! "host" = None ->
                node_setup request w = (inl (KeyError "host"), w)).
Proof.
  intros Hm Hc Hk Hne.
  assert (Hsel : select_target request w =
                 (n <~ data_getitem d "name" ;;
                  h <~ data_getitem d "host" ;;
                  ret (Some (cache_key kw), n, h, d)) w).
  { unfold select_target. rewrite Hm.
    rewrite (bind_inr _ _ _ _ _ (assert_cache_some w c Hc)).
    rewrite (bind_inr _ _ _ _ _ (cache_get_some w c _ Hc)).
    rewrite Hk. cbn [mjoin option_join default from_option id].
    unfold data_truthy. rewrite (bool_decide_eq_true_2 _ Hne).
    unfold ret at 1. unfold bind at 1. reflexivity. }
  split.
  - intros Hn. unfold node_setup. apply bind_inl. rewrite Hsel.
    apply bind_inl. unfold data_getitem. rewrite Hn. reflexivity.
  - intros n Hn Hh. unfold node_setup. apply bind_inl. rewrite Hsel.
    unfold data_getitem. rewrite Hn. unfold ret at 1. unfold bind at 1.
    apply bind_inl. rewrite Hh. reflexivity.
Qed.

Lemma hit_without_name_or_host_witness :
  let w := set_cache (Some {[ cache_key sample_deploy := Some {[ "host" := "198.51.100.7" ]} ]})
             sample_world in
  node_setup (mkRequest (Some sample_deploy) None false) w = (inl (KeyError "name"), w).
Proof.
  intros w.
  apply (hit_without_name_or_host (mkRequest (Some sample_deploy) None false)
           sample_deploy w
           {[ cache_key sample_deploy := Some {[ "host" := "198.51.100.7" ]} ]}
           {[ "host" := "198.51.100.7" ]}).
  - reflexivity.
  - reflexivity.
  - apply lookup_singleton_eq.
  - intros H. assert (Hl : ({[ "host" := "198.51.100.7" ]} : descriptor) !! "host" = None)
      by (rewrite H; apply lookup_empty).
    rewrite lookup_singleton_eq in Hl. discriminate.
  - reflexivity.
Defined.

(** ** Provisioning and the cache over several uses *)





(** ** The checks before a deployment *)

(** [check_az_cli] as a decision tree over the answers of the two commands. *)
Lemma check_az_cli_eq (w : World) :
  let kw1 := [("warn", VBool true)] in
  let c1 := cloud w (trace w) "az --version" kw1 in
  let w1 := set_now (now w + took c1)%N (set_trace (trace w ++ [Run "az --version" kw1]) w) in
  let c2 := cloud w (trace w1) "az account show" [] in
  let w2 := set_now (now w1 + took c2)%N
              (set_trace (trace w1 ++ [Run "az account show" []]) w1) in
  check_az_cli w =
    if negb (ok (result c1)) then (inl (AssertionError "Please install the `az` CLI!"), w1)
    else if negb (ok (result c2)) then (inl (UnexpectedExit "az account show"), w2)
    else match stdout_json (result c2) with
         | None => (inl JSONDecodeError, w2)
         | Some (JObj fields) =>
             match assoc "isDefault" fields with
             | None => (inl (KeyError "isDefault"), w2)
             | Some d =>
                 if negb (json_truthy d) then
                   (inl (AssertionError "Please `az account set -s <subscription>`!"), w2)
                 else match assoc "user" fields with
                      | None => (inl (KeyError "user"), w2)
                      | Some (JObj ufields) =>
                          match assoc "name" ufields with
                          | None => (inl (KeyError "name"), w2)
                          | Some _ =>
                              match assoc "name" fields with
                              | None => (inl (KeyError "name"), w2)
                              | Some _ => (inr tt, w2)
                              end
                          end
                      | Some _ => (inl TypeError, w2)
                      end
             end
         | Some _ => (inl TypeError, w2)
         end.
Proof.
  cbv zeta.
  unfold check_az_cli, local_run, bind, Context_run, assert, json_loads, json_getitem,
    ret, raise.
  cbn [assoc String.eqb Ascii.eqb Bool.eqb py_truthy orb].
  rewrite orb_true_r.
  destruct (ok (result (cloud w (trace w) "az --version" [("warn", VBool true)])));
    [|reflexivity].
  cbn [negb trace set_now set_trace cloud heap now].
  rewrite orb_false_r.
  destruct (ok (result (cloud w _ "az account show" []))) eqn:Hok2; [|reflexivity].
  cbn [negb]. rewrite Hok2.
  destruct (stdout_json _) as [[| | | | |fields]|]; try reflexivity.
  destruct (assoc "isDefault" fields) as [d|]; [|reflexivity].
  destruct (json_truthy d); [|reflexivity]. cbn [negb].
  destruct (assoc "user" fields) as [[| | | | |ufields]|]; try reflexivity.
  destruct (assoc "name" ufields); [|reflexivity].
  destruct (assoc "name" fields); reflexivity.
Qed.

(** X7.  [check_az_cli] returns exactly when [az --version] succeeds,
    [az account show] succeeds and prints a JSON object with a true
    ["isDefault"], a ["name"] and a ["user"] object that has a ["name"];
    then it has run those two commands, in that order, and nothing else, and
    the time both took has passed. *)
Theorem check_az_cli_returns_iff (w w' : World) :
  let kw1 := [("warn", VBool true)] in
  let c1 := cloud w (trace w) "az --version" kw1 in
  let c2 := cloud w (trace w ++ [Run "az --version" kw1]) "az account show" [] in
  check_az_cli w = (inr tt, w')
  <-> (ok (result c1) = true /\ ok (result c2) = true
       /\ (exists fields d ufields n s,
             stdout_json (result c2) = Some (JObj fields)
             /\ assoc "isDefault" fields = Some d /\ json_truthy d = true
             /\ assoc "user" fields = Some (JObj ufields)
             /\ assoc "name" ufields = Some n
             /\ assoc "name" fields = Some s)
       /\ w' = set_now (now w + took c1 + took c2)%N
                 (set_trace (trace w ++ [Run "az --version" kw1; Run "az account show" []]) w)).
Proof.
  cbv zeta. rewrite check_az_cli_eq. cbv zeta.
  cbn [trace set_now set_trace now].
  rewrite <- app_assoc. cbn [app].
  destruct (ok (result (cloud w (trace w) _ _))); cbn [negb];
    [|split; [discriminate | intros (? & _); discriminate]].
  destruct (ok (result (cloud w (trace w ++ _) _ _))); cbn [negb];
    [|split; [discriminate | intros (_ & ? & _); discriminate]].
  destruct (stdout_json _) as [j|];
    [|split; [discriminate | intros (_ & _ & (? & ? & ? & ? & ? & ? & _) & _); discriminate]].
  destruct j as [| | | | |fields];
    try (split; [discriminate | intros (_ & _ & (? & ? & ? & ? & ? & ? & _) & _); discriminate]).
  destruct (assoc "isDefault" fields) as [d|] eqn:Hd;
    [|split; [discriminate
             | intros (_ & _ & (? & ? & ? & ? & ? & [= <-] & ? & _) & _); congruence]].
  destruct (json_truthy d) eqn:Htd; cbn [negb];
    [|split; [discriminate
             | intros (_ & _ & (? & ? & ? & ? & ? & [= <-] & ? & ? & _) & _); congruence]].
  destruct (assoc "user" fields) as [u|] eqn:Hu;
    [|split; [discriminate
             | intros (_ & _ & (? & ? & ? & ? & ? & [= <-] & _ & _ & ? & _) & _); congruence]].
  destruct u as [| | | | |ufields];
    try (split; [discriminate
                | intros (_ & _ & (? & ? & ? & ? & ? & [= <-] & _ & _ & ? & _) & _);
                  congruence]).
  destruct (assoc "name" ufields) as [n|] eqn:Hn;
    [|split; [discriminate
             | intros (_ & _ & (? & ? & ? & ? & ? & [= <-] & _ & _ & ? & ? & _) & _);
               congruence]].
  destruct (assoc "name" fields) as [s|] eqn:Hs;
    [|split; [discriminate
             | intros (_ & _ & (? & ? & ? & ? & ? & [= <-] & _ & _ & _ & _ & ?) & _);
               congruence]].
  split.
  - intros [= <-]. split_and!; auto. exists fields, d, ufields, n, s.
    split_and!; auto.
  - intros (_ & _ & _ & ->). reflexivity.
Qed.

Lemma check_az_cli_returns_iff_witness :
  check_az_cli sample_world
  = (inr tt,
     set_now 1000
       (set_trace [Run "az --version" [("warn", VBool true)]; Run "az account show" []]
          sample_world)).
Proof.
  apply (proj2 (check_az_cli_returns_iff sample_world _)).
  split_and!; try reflexivity.
  eexists _, _, _, _, _. split_and!; reflexivity.
Defined.

(** X8.  How [check_az_cli] fails.  If [az --version] fails, the assertion
    about the installation is raised after that one command.  If
    [az account show] fails, the exception is Invoke's [UnexpectedExit] for
    that command: the assertion ["Please `az login`!"] that follows the
    command is never the one raised, whatever the cloud answers.  In every
    case one or two commands have been run. *)
Theorem check_az_cli_failures (w w' : World) (e : exn) :
  let kw1 := [("warn", VBool true)] in
  let c1 := cloud w (trace w) "az --version" kw1 in
  let c2 := cloud w (trace w ++ [Run "az --version" kw1]) "az account show" [] in
  check_az_cli w = (inl e, w') ->
  e <> AssertionError "Please `az login`!"
  /\ (ok (result c1) = false ->
      e = AssertionError "Please install the `az` CLI!"
      /\ trace w' = trace w ++ [Run "az --version" kw1])
  /\ (ok (result c1) = true -> ok (result c2) = false ->
      e = UnexpectedExit "az account show")
  /\ (ok (result c1) = true ->
      trace w' = trace w ++ [Run "az --version" kw1; Run "az account show" []]).
Proof.
  cbv zeta. rewrite check_az_cli_eq. cbv zeta.
  cbn [trace set_now set_trace now].
  rewrite <- app_assoc. cbn [app].
  destruct (ok (result (cloud w (trace w) _ _))); cbn [negb].
  2:{ intros [= <- <-]. split_and!; try discriminate; auto. }
  destruct (ok (result (cloud w (trace w ++ _) _ _))); cbn [negb].
  2:{ intros [= <- <-]. split_and!; try discriminate; auto. }
  intros H.
  assert (Hshape : (e = JSONDecodeError \/ e = TypeError \/ (exists k, e = KeyError k)
                    \/ e = AssertionError "Please `az account set -s <subscription>`!")
                   /\ trace w' = trace w ++ [Run "az --version" [("warn", VBool true)];
                                             Run "az account show" []]).
  { repeat match type of H with
           | context [match ?x with _ => _ end] => destruct x
           end;
      try discriminate H;
      injection H as <- <-; cbn [trace set_now set_trace]; split; eauto. }
  destruct Hshape as [He Ht].
  split_and!; try discriminate; auto.
  destruct He as [->|[->|[(k & ->)| ->]]]; discriminate.
Qed.

Lemma check_az_cli_failures_witness :
  check_az_cli down_world
  = (inl (AssertionError "Please install the `az` CLI!"),
     (check_az_cli down_world).2)
  /\ trace (check_az_cli down_world).2 = [Run "az --version" [("warn", VBool true)]].
Proof.
  destruct (check_az_cli_failures down_world (check_az_cli down_world).2
              (AssertionError "Please install the `az` CLI!")) as (_ & H & _).
  - vm_compute. reflexivity.
  - split; [vm_compute; reflexivity|].
    destruct (H eq_refl) as [_ Ht]. exact Ht.
Defined.

(** ** The storage for boot diagnostics *)

(** A command run by the module-level context without keywords. *)
Lemma local_run_plain (command : string) (w : World) :
  let c := cloud w (trace w) command [] in
  let w1 := set_now (now w + took c)%N (set_trace (trace w ++ [Run command []]) w) in
  local_run command [] w
  = if ok (result c) then (inr (result c), w1) else (inl (UnexpectedExit command), w1).
Proof.
  cbv zeta. unfold local_run, Context_run. cbn [assoc]. rewrite orb_false_r. reflexivity.
Qed.

(** A command run with [warn=True]: its result comes back, failed or not. *)
Lemma local_run_warn (command : string) (w : World) :
  let kw := [("warn", VBool true)] in
  let c := cloud w (trace w) command kw in
  local_run command kw w
  = (inr (result c),
     set_now (now w + took c)%N (set_trace (trace w ++ [Run command kw]) w)).
Proof.
  cbv zeta. unfold local_run, Context_run.
  cbn [assoc String.eqb Ascii.eqb Bool.eqb py_truthy]. rewrite orb_true_r. reflexivity.
Qed.

Lemma run_then_unit (command : string) (w : World) :
  let c := cloud w (trace w) command [] in
  let w1 := set_now (now w + took c)%N (set_trace (trace w ++ [Run command []]) w) in
  bind (local_run command []) (fun _ => ret tt) w
  = if ok (result c) then (inr tt, w1) else (inl (UnexpectedExit command), w1).
Proof.
  cbv zeta. unfold bind. rewrite local_run_plain. cbv zeta.
  destruct (ok _); reflexivity.
Qed.

(** X9.  When the shared resource group exists (the answer of
    [az group exists], white space aside, is not ["false"]) and the storage
    account is found, [create_boot_storage] creates nothing: it runs those
    two queries and returns the fixed account name, whatever the
    location. *)
Theorem create_boot_storage_existing (location : string) (w : World) :
  let q1 := "az group exists -n pytest-lisa" in
  let q2 := "az storage account show -g pytest-lisa -n pytestbootdiag" in
  let c1 := cloud w (trace w) q1 [] in
  let c2 := cloud w (trace w ++ [Run q1 []]) q2 [("warn", VBool true)] in
  ok (result c1) = true ->
  str_strip (stdout (result c1)) <> "false" ->
  ok (result c2) = true ->
  create_boot_storage location w
  = (inr "pytestbootdiag",
     set_now (now w + took c1 + took c2)%N
       (set_trace (trace w ++ [Run q1 []; Run q2 [("warn", VBool true)]]) w)).
Proof.
  cbv zeta. intros H1 Hne H2.
  unfold create_boot_storage.
  unfold bind at 1. rewrite local_run_plain. cbv zeta. rewrite H1.
  apply String.eqb_neq in Hne. rewrite Hne.
  unfold ret at 1. unfold bind at 1. unfold bind at 1.
  change ("az storage account show -g pytest-lisa -n " +:+ "pytestbootdiag")
    with "az storage account show -g pytest-lisa -n pytestbootdiag".
  rewrite local_run_warn. cbv zeta.
  cbn [trace set_now set_trace now cloud]. rewrite H2. cbn [negb].
  unfold ret, bind. rewrite <- app_assoc. reflexivity.
Qed.

Lemma create_boot_storage_existing_witness :
  create_boot_storage "westus2" sample_world
  = (inr "pytestbootdiag",
     set_now 1000
       (set_trace [Run "az group exists -n pytest-lisa" [];
                   Run "az storage account show -g pytest-lisa -n pytestbootdiag"
                     [("warn", VBool true)]]
          sample_world)).
Proof.
  apply (create_boot_storage_existing "westus2" sample_world).
  - reflexivity.
  - vm_compute. discriminate.
  - reflexivity.
Defined.

(** X10.  When the answer of [az group exists] is ["false"] (white space
    aside) and the storage account is not found, [create_boot_storage]
    creates the group in the given location and then the account, provided
    each creation succeeds: four commands in this order, and the fixed
    account name is returned.  A creation that fails raises
    [UnexpectedExit] for its command and nothing after it is run. *)
Theorem create_boot_storage_missing (location : string) (w : World) :
  let q1 := "az group exists -n pytest-lisa" in
  let m1 := "az group create -n pytest-lisa --location " +:+ location in
  let q2 := "az storage account show -g pytest-lisa -n pytestbootdiag" in
  let m2 := "az storage account create -g pytest-lisa -n pytestbootdiag" in
  let warn := [("warn", VBool true)] in
  let c1 := cloud w (trace w) q1 [] in
  let c2 := cloud w (trace w ++ [Run q1 []]) m1 [] in
  let c3 := cloud w (trace w ++ [Run q1 []; Run m1 []]) q2 warn in
  let c4 := cloud w (trace w ++ [Run q1 []; Run m1 []; Run q2 warn]) m2 [] in
  ok (result c1) = true ->
  str_strip (stdout (result c1)) = "false" ->
  (ok (result c2) = false ->
   (create_boot_storage location w).1 = inl (UnexpectedExit m1)
   /\ trace (create_boot_storage location w).2 = trace w ++ [Run q1 []; Run m1 []])
  /\ (ok (result c2) = true -> ok (result c3) = false ->
      (ok (result c4) = true ->
       create_boot_storage location w
       = (inr "pytestbootdiag",
          set_now (now w + took c1 + took c2 + took c3 + took c4)%N
            (set_trace (trace w ++ [Run q1 []; Run m1 []; Run q2 warn; Run m2 []]) w)))
      /\ (ok (result c4) = false ->
          (create_boot_storage location w).1 = inl (UnexpectedExit m2))).
Proof.
  cbv zeta. intros H1 Hf.
  remember (create_boot_storage location w) as res eqn:E.
  unfold create_boot_storage in E.
  unfold bind at 1 in E. rewrite local_run_plain in E. cbv zeta in E. rewrite H1 in E.
  rewrite (proj2 (String.eqb_eq _ _) Hf) in E.
  unfold bind at 1 in E. rewrite run_then_unit in E. cbv zeta in E.
  cbn [trace set_now set_trace now cloud] in E.
  rewrite <- !app_assoc in E. cbn [app] in E.
  change ("az storage account show -g pytest-lisa -n " +:+ "pytestbootdiag")
    with "az storage account show -g pytest-lisa -n pytestbootdiag" in E.
  change ("az storage account create -g pytest-lisa -n " +:+ "pytestbootdiag")
    with "az storage account create -g pytest-lisa -n pytestbootdiag" in E.
  split.
  - intros H2. rewrite H2 in E. subst res. split; reflexivity.
  - intros H2 H3. rewrite H2 in E.
    unfold bind at 1 in E. rewrite local_run_warn in E. cbv zeta in E.
    cbn [trace set_now set_trace now cloud] in E.
    rewrite <- !app_assoc in E. cbn [app] in E. rewrite H3 in E. cbn [negb] in E.
    unfold bind at 1 in E. rewrite run_then_unit in E. cbv zeta in E.
    cbn [trace set_now set_trace now cloud] in E.
    rewrite <- !app_assoc in E. cbn [app] in E.
    split; intros H4; rewrite H4 in E; subst res; reflexivity.
Qed.

Lemma create_boot_storage_missing_witness :
  let w := mkWorld
             (fun t command _ =>
                if String.eqb command "az group exists -n pytest-lisa"
                then mkResponse (mkResult true "false
" None) 300
                else if String.prefix "az storage account show" command
                then mkResponse (mkResult false "" None) 300
                else mkResponse (mkResult true "" None) 300)
             [] (Some ∅) module_heap sample_uuids 0 0 ∅ ∅ in
  create_boot_storage "westus2" w
  = (inr "pytestbootdiag",
     set_now 1200
       (set_trace
          [Run "az group exists -n pytest-lisa" [];
           Run "az group create -n pytest-lisa --location westus2" [];
           Run "az storage account show -g pytest-lisa -n pytestbootdiag"
             [("warn", VBool true)];
           Run "az storage account create -g pytest-lisa -n pytestbootdiag" []]
          w)).
Proof.
  intros w.
  destruct (create_boot_storage_missing "westus2" w) as [_ H].
  - reflexivity.
  - reflexivity.
  - destruct (H eq_refl eq_refl) as [H4 _]. apply H4. reflexivity.
Defined.

(** ** Deploying *)

Lemma bind_kwargs_known (kw : kwargs) (a : deploy_args) :
  Forall (fun k => In k deploy_keywords) (map fst kw) ->
  exists a', bind_kwargs kw a = Some a'.
Proof.
  revert a. induction kw as [|[k v] kw IH]; intros a Hk; cbn [bind_kwargs].
  - eauto.
  - cbn in Hk. apply Forall_cons in Hk as [Hin Hrest].
    unfold deploy_keywords in Hin. cbn in Hin.
    destruct Hin as [<-|[<-|[<-|[<-|[<-|[]]]]]]; cbn; apply IH; exact Hrest.
Qed.

Lemma bind_kwargs_unknown (kw : kwargs) (a : deploy_args) :
  ~ Forall (fun k => In k deploy_keywords) (map fst kw) ->
  bind_kwargs kw a = None.
Proof.
  revert a. induction kw as [|[k v] kw IH]; intros a Hk; cbn [bind_kwargs].
  - exfalso. apply Hk. constructor.
  - assert (Hrest : In k deploy_keywords ->
                    ~ Forall (fun k => In k deploy_keywords) (map fst kw)).
    { intros Hin Hall. apply Hk. cbn. constructor; assumption. }
    destruct (String.eqb_spec k "location") as [->|H1];
      [apply IH, Hrest; cbn; tauto|].
    destruct (String.eqb_spec k "vm_image") as [->|H2];
      [apply IH, Hrest; cbn; tauto|].
    destruct (String.eqb_spec k "vm_size") as [->|H3];
      [apply IH, Hrest; cbn; tauto|].
    destruct (String.eqb_spec k "setup") as [->|H4];
      [apply IH, Hrest; cbn; tauto|].
    destruct (String.eqb_spec k "networking") as [->|H5];
      [apply IH, Hrest; cbn; tauto|].
    reflexivity.
Qed.

(** X11.  [deploy_vm] takes the keywords of the marker as its own
    parameters.  If one of them is not a parameter name ([location],
    [vm_image], [vm_size], [setup], [networking]; so also a second [name]),
    the call is a [TypeError] and not one command is run.  Otherwise the
    call goes through and begins with the check of the [az] CLI. *)
Theorem deploy_vm_keywords (name : string) (kw : kwargs) (w : World) :
  (~ Forall (fun k => In k deploy_keywords) (map fst kw) ->
   deploy_vm name kw w
   = (inl TypeError, set_trace (trace w ++ [Call_deploy_vm name kw]) w))
  /\ (Forall (fun k => In k deploy_keywords) (map fst kw) ->
      exists evs,
        trace (deploy_vm name kw w).2
        = trace w ++ Call_deploy_vm name kw
                     :: Run "az --version" [("warn", VBool true)] :: evs).
Proof.
  split.
  - intros Hk. unfold deploy_vm. unfold bind at 1, log.
    rewrite (bind_kwargs_unknown kw deploy_defaults Hk). reflexivity.
  - intros Hk. destruct (bind_kwargs_known kw deploy_defaults Hk) as (a & Ha).
    unfold deploy_vm. unfold bind at 1, log. rewrite Ha.
    set (w0 := set_trace (trace w ++ [Call_deploy_vm name kw]) w).
    unfold bind at 1.
    assert (Hv : exists evs1, trace (check_az_cli w0).2
                          = trace w0 ++ Run "az --version" [("warn", VBool true)] :: evs1).
    { rewrite check_az_cli_eq. cbv zeta.
      repeat match goal with
             | |- context [match ?x with _ => _ end] => destruct x
             end;
        cbn [snd trace set_now set_trace]; rewrite <- ?app_assoc; eauto. }
    destruct Hv as (evs1 & Hv).
    destruct (check_az_cli w0) as [[e|[]] w1] eqn:Hchk; cbn [snd] in Hv.
    + cbn [snd]. rewrite Hv. unfold w0. cbn [trace set_trace].
      rewrite <- app_assoc. eauto.
    + match goal with
      | |- context [trace (?m w1).2] =>
          assert (Hstep : cli_step w1 (m w1).2)
      end.
      { apply (fun m (H : preserves cli_step m) => H w1).
        pose proof preserves_create_boot_storage.
        unfold local_run. cli_steps. }
      destruct Hstep as (_ & _ & _ & _ & _ & _ & _ & _ & evs2 & Ht2 & _).
      rewrite Ht2, Hv. unfold w0. cbn [trace set_trace].
      rewrite <- !app_assoc. cbn [app]. eauto.
Qed.

Lemma deploy_vm_keywords_witness :
  deploy_vm "pytest-a" [("name", "mine")] sample_world
  = (inl TypeError,
     set_trace [Call_deploy_vm "pytest-a" [("name", "mine")]] sample_world)
  /\ exists evs,
       trace (deploy_vm "pytest-a" sample_deploy sample_world).2
       = trace sample_world
         ++ Call_deploy_vm "pytest-a" sample_deploy
            :: Run "az --version" [("warn", VBool true)] :: evs.
Proof.
  split.
  - apply (proj1 (deploy_vm_keywords "pytest-a" [("name", "mine")] sample_world)).
    intros H. cbn in H. apply Forall_inv in H. cbn in H.
    repeat (destruct H as [H|H]; [discriminate|]). exact H.
  - apply (proj2 (deploy_vm_keywords "pytest-a" sample_deploy sample_world)).
    repeat constructor; cbn; tauto.
Defined.

Lemma create_boot_storage_returns (location a : string) (w w' : World) :
  create_boot_storage location w = (inr a, w') -> a = "pytestbootdiag".
Proof.
  unfold create_boot_storage, bind, ret. intros H.
  repeat match type of H with
         | context [match ?x with _ => _ end] => destruct x; try discriminate H
         end;
    injection H as <- _; reflexivity.
Qed.

(** X12.  When [deploy_vm] returns, the host is the ["publicIpAddress"] of
    the descriptor it returns, and the last two commands it ran are the
    creation of the resource group [<name>-rg] in the chosen location and
    then [az vm create] in that group, with the image, the size and the
    shared boot-diagnostics account, and with accelerated networking exactly
    when [networking] is ["SRIOV"]; everything before them is a command
    run by the checks. *)
Theorem deploy_vm_success_shape
    (name : string) (kw : kwargs) (w w' : World) (host : string) (data : descriptor) :
  deploy_vm name kw w = (inr (host, data), w') ->
  exists a evs,
    bind_kwargs kw deploy_defaults = Some a
    /\ data !! "publicIpAddress" = Some host
    /\ forallb is_run evs = true
    /\ trace w'
       = trace w ++ Call_deploy_vm name kw :: evs
         ++ [Run ("az group create -n " +:+ name +:+ "-rg --location " +:+ location a) [];
             Run (join " "
                    (["az vm create";
                      "-g " +:+ name +:+ "-rg";
                      "-n " +:+ name;
                      "--image " +:+ vm_image a;
                      "--size " +:+ vm_size a;
                      "--boot-diagnostics-storage pytestbootdiag";
                      "--generate-ssh-keys"]
                     ++ (if String.eqb (networking a) "SRIOV"
                         then ["--accelerated-networking true"] else []))) []].
Proof.
  unfold deploy_vm. unfold bind at 1, log.
  destruct (bind_kwargs kw deploy_defaults) as [a|]; [|discriminate].
  set (w0 := set_trace (trace w ++ [Call_deploy_vm name kw]) w).
  unfold bind at 1.
  pose proof (preserves_check_az_cli w0) as Hs1.
  destruct (check_az_cli w0) as [[e|[]] w1]; [discriminate|]. cbn [snd] in Hs1.
  unfold bind at 1.
  pose proof (preserves_create_boot_storage (location a) w1) as Hs2.
  destruct (create_boot_storage (location a) w1) as [[e|acct] w2] eqn:Hcbs;
    [discriminate|]. cbn [snd] in Hs2.
  apply create_boot_storage_returns in Hcbs. subst acct.
  unfold bind at 1. rewrite local_run_plain. cbv zeta.
  destruct (ok _); [|discriminate].
  unfold bind at 1. rewrite local_run_plain. cbv zeta.
  destruct (ok _); [|discriminate].
  unfold bind, json_loads, ret, raise.
  destruct (stdout_json _) as [[| | | | |fields]|]; try discriminate.
  destruct (as_descriptor fields) as [d|]; [|discriminate].
  destruct (d !! "publicIpAddress") as [h|] eqn:Hip; [|discriminate].
  intros [= <- <- <-].
  pose proof (cli_step_trans _ _ _ Hs1 Hs2)
    as (_ & _ & _ & _ & _ & _ & _ & _ & evs & Ht & Hev).
  exists a, evs. split_and!; auto.
  cbn [trace set_now set_trace]. rewrite Ht. unfold w0. cbn [trace set_trace].
  rewrite <- !app_assoc. reflexivity.
Qed.

Lemma deploy_vm_success_shape_witness :
  exists a evs,
    bind_kwargs sample_deploy deploy_defaults = Some a
    /\ networking a = "SRIOV"
    /\ forallb is_run evs = true
    /\ trace (deploy_vm "pytest-a" sample_deploy sample_world).2
       = trace sample_world ++ Call_deploy_vm "pytest-a" sample_deploy :: evs
         ++ [Run "az group create -n pytest-a-rg --location westus2" [];
             Run "az vm create -g pytest-a-rg -n pytest-a --image UbuntuLTS --size Standard_DS1_v2 --boot-diagnostics-storage pytestbootdiag --generate-ssh-keys --accelerated-networking true" []].
Proof.
  destruct (deploy_vm_success_shape "pytest-a" sample_deploy sample_world
              (deploy_vm "pytest-a" sample_deploy sample_world).2
              "203.0.113.5"
              {[ "publicIpAddress" := "203.0.113.5"; "location" := "westus2" ]})
    as (a & evs & Ha & _ & Hev & Ht).
  - vm_compute. reflexivity.
  - injection Ha as <-.
    exists (mk_deploy_args "westus2" "UbuntuLTS" "Standard_DS1_v2" "" "SRIOV"), evs.
    split_and!; [reflexivity | reflexivity | exact Hev |].
    exact Ht.
Defined.

(** ** Commands of the module-level context *)

Section Preserving.
Variable R : World -> World -> Prop.
Hypothesis R_refl : forall w, R w w.
Hypothesis R_trans : forall w1 w2 w3, R w1 w2 -> R w2 w3 -> R w1 w3.

Lemma preserving_ret {A} (a : A) : preserves R (ret a).
Proof. intros w. apply R_refl. Qed.

Lemma preserving_raise {A} (e : exn) : preserves R (@raise A e).
Proof. intros w. apply R_refl. Qed.

Lemma preserving_bind {A B} (m : M A) (k : A -> M B) :
  preserves R m -> (forall a, preserves R (k a)) -> preserves R (bind m k).
Proof.
  intros Hm Hk w. unfold bind. specialize (Hm w).
  destruct (m w) as [[e|a] w1]; cbn [snd] in *; [exact Hm|].
  eapply R_trans; [exact Hm | apply Hk].
Qed.
End Preserving.

Lemma plain_step_refl (w : World) : plain_step w w.
Proof. exists []. split; [by rewrite app_nil_r | reflexivity]. Qed.

Lemma plain_step_trans (w1 w2 w3 : World) :
  plain_step w1 w2 -> plain_step w2 w3 -> plain_step w1 w3.
Proof.
  intros (e1 & H1 & F1) (e2 & H2 & F2). exists (e1 ++ e2). split.
  - rewrite H2, H1, app_assoc. reflexivity.
  - rewrite forallb_app, F1, F2. reflexivity.
Qed.

(** A computation that leaves the trace alone. *)
Lemma plain_silent {A} (m : M A) :
  (forall w, trace (m w).2 = trace w) -> preserves plain_step m.
Proof.
  intros H w. exists []. split; [by rewrite H, app_nil_r | reflexivity].
Qed.

Lemma plain_Context_run (command : string) (kw : run_kwargs) :
  assoc "env" kw = None -> assoc "replace_env" kw = None ->
  preserves plain_step (Context_run command kw).
Proof.
  intros He Hr w. rewrite Context_run_world.
  exists [Run command kw]. split; [reflexivity|].
  cbn. rewrite He, Hr. reflexivity.
Qed.

Lemma plain_log (e : event) : no_env e = true -> preserves plain_step (log e).
Proof.
  intros He w. exists [e]. split; [reflexivity|]. cbn. rewrite He. reflexivity.
Qed.

Create HintDb plain.
#[local] Hint Resolve plain_step_refl plain_step_trans : plain.
#[local] Hint Extern 1 (preserves plain_step (ret _)) =>
  apply (preserving_ret plain_step plain_step_refl) : plain.
#[local] Hint Extern 1 (preserves plain_step (raise _)) =>
  apply (preserving_raise plain_step plain_step_refl) : plain.
#[local] Hint Extern 1 (preserves plain_step (Context_run _ _)) =>
  apply plain_Context_run; reflexivity : plain.
#[local] Hint Extern 1 (preserves plain_step (log _)) =>
  apply plain_log; reflexivity : plain.
#[local] Hint Extern 2 (preserves plain_step _) =>
  apply plain_silent; intros ?; reflexivity : plain.

Ltac plain_steps :=
  repeat first
    [ solve [auto with plain]
    | apply (preserving_bind plain_step plain_step_trans); [|intros ?]
    | match goal with |- preserves _ (if ?b then _ else _) => destruct b end
    | match goal with |- preserves _ (match ?x with _ => _ end) => destruct x end ].

Lemma plain_deploy_vm (name : string) (kw : kwargs) : preserves plain_step (deploy_vm name kw).
Proof.
  unfold deploy_vm, check_az_cli, create_boot_storage, local_run, assert,
    json_loads, json_getitem.
  plain_steps.
Qed.

Lemma plain_delete_vm (name : string) : preserves plain_step (delete_vm name).
Proof. unfold delete_vm, local_run. plain_steps. Qed.

Lemma plain_assert_cache : preserves plain_step assert_cache.
Proof.
  apply plain_silent. intros w. unfold assert_cache, assert.
  destruct (bool_decide _); reflexivity.
Qed.

Lemma plain_cache_get (k : string) : preserves plain_step (cache_get k).
Proof. apply plain_silent. intros w. unfold cache_get. destruct (cache w); reflexivity. Qed.

Lemma plain_cache_set (k : string) v : preserves plain_step (cache_set k v).
Proof. apply plain_silent. intros w. unfold cache_set. destruct (cache w); reflexivity. Qed.

Lemma plain_data_getitem (d : descriptor) (k : string) :
  preserves plain_step (data_getitem d k).
Proof. apply plain_silent. intros w. unfold data_getitem. destruct (d !! k); reflexivity. Qed.

Lemma plain_getitem (v : pyval) (k : string) : preserves plain_step (getitem v k).
Proof.
  apply plain_silent. intros w.
  destruct (getitem v k w) as [r w1] eqn:H. apply getitem_world in H. by subst.
Qed.

Lemma plain_setitem (v : pyval) (k : string) (x : pyval) :
  preserves plain_step (setitem v k x).
Proof.
  apply plain_silent. intros w. unfold setitem, bind.
  destruct (deref v w) as [[e|o] w1] eqn:H; apply deref_world in H; by subst.
Qed.

Lemma plain_dict_copy (v : pyval) : preserves plain_step (dict_copy v).
Proof.
  apply plain_silent. intros w. unfold dict_copy, bind.
  destruct (deref v w) as [[e|o] w1] eqn:H; apply deref_world in H; by subst.
Qed.

Lemma plain_deref (v : pyval) : preserves plain_step (deref v).
Proof.
  apply plain_silent. intros w.
  destruct (deref v w) as [r w1] eqn:H. apply deref_world in H. by subst.
Qed.

Lemma plain_open_node v : preserves plain_step (open_node v).
Proof.
  destruct v as [[[k n] h] d].
  pose proof plain_deref.
  unfold open_node. plain_steps.
Qed.

Lemma plain_select_target request : preserves plain_step (select_target request).
Proof.
  pose proof plain_assert_cache. pose proof plain_cache_get. pose proof plain_cache_set.
  pose proof plain_data_getitem. pose proof plain_deploy_vm.
  unfold select_target, uuid4. plain_steps.
Qed.

(** X13.  The commands that the plugin itself runs (the checks, the
    deployment, the deletion; so every command of the fixture's setup and
    clean-up) are handed to the module-level context without an [env] and
    without a [replace_env] of their own, in contrast to [Node.local]: their
    environment is whatever the shared configuration says. *)
Theorem fixture_commands_carry_no_env
    (request : FixtureRequest) (l : locals) (name : string) (kw : kwargs) (w : World) :
  plain_step w (deploy_vm name kw w).2
  /\ plain_step w (delete_vm name w).2
  /\ plain_step w (node_setup request w).2
  /\ plain_step w (node_teardown request l w).2.
Proof.
  split_and!.
  - apply plain_deploy_vm.
  - apply plain_delete_vm.
  - apply (fun m (H : preserves plain_step m) => H w).
    pose proof plain_select_target. pose proof plain_open_node.
    unfold node_setup. plain_steps.
  - apply (fun m (H : preserves plain_step m) => H w).
    pose proof plain_delete_vm. pose proof plain_assert_cache. pose proof plain_cache_set.
    unfold node_teardown. plain_steps.
Qed.

(** ** The configuration over several uses *)

(** X14.  A use of the fixture adds two dictionaries to the heap (the copy
    of [config] and the environment) and writes one entry, ["env"] of the
    shared ["run"] dictionary.  Every other entry of that dictionary (the
    echo, the stdin and the timeout settings) reads as before, and every
    other dictionary is as it was. *)
Theorem fixture_keeps_run_settings
    (request : FixtureRequest) (w w' : World) (node : Node.t) (l : locals)
    (outer inner : pydict) (r : loc) :
  heap w !! 1%nat = Some outer -> outer !! "run" = Some (VRef r) ->
  heap w !! r = Some inner ->
  node_setup request w = (inr (node, l), w') ->
  length (heap w') = length (heap w) + 2
  /\ (forall k, k <> "env" ->
        exists d, heap w' !! r = Some d /\ d !! k = inner !! k)
  /\ (forall i d, i <> r -> heap w !! i = Some d -> heap w' !! i = Some d).
Proof.
  intros Ho Hr Hi Hs.
  destruct (node_setup_inv _ _ _ _ _ Hs) as ([[[k n] h] d] & w1 & Hsel & Hopen).
  assert (Hh : heap w1 = heap w).
  { pose proof (select_target_heap request w) as H. rewrite Hsel in H. exact H. }
  rewrite (open_node_eq k n h d w1 outer r inner) in Hopen by (rewrite ?Hh; assumption).
  injection Hopen as _ _ <-. cbn [heap set_heap]. rewrite Hh.
  unfold opened_heap. split_and!.
  - rewrite length_insert, length_app. cbn. lia.
  - intros key Hkey. eexists. split.
    + apply list_lookup_insert_eq. rewrite length_app.
      apply lookup_lt_Some in Hi. lia.
    + by rewrite lookup_insert_ne.
  - intros i di Hne Hdi. rewrite list_lookup_insert_ne by congruence.
    by apply lookup_app_l_Some.
Qed.

Lemma fixture_keeps_run_settings_witness :
  let w' := (node_setup (mkRequest None None true) sample_world).2 in
  length (heap w') = 4
  /\ exists d, heap w' !! 0%nat = Some d
               /\ d !! "timeout" = Some (VInt 300)
               /\ d !! "echo" = Some (VBool true)
               /\ d !! "in_stream" = Some (VBool false).
Proof.
  intros w'.
  destruct (fixture_keeps_run_settings (mkRequest None None true) sample_world w'
              (Node.mk "localhost" (VRef 2%nat) true "localhost" ∅)
              (mkLocals None "localhost")
              {[ "run" := VRef 0%nat ]} run_defaults 0%nat)
    as (Hlen & Hkeep & _).
  - reflexivity.
  - reflexivity.
  - reflexivity.
  - vm_compute. reflexivity.
  - split; [exact Hlen|].
    destruct (Hkeep "timeout") as (d & Hd & Ht); [discriminate|].
    destruct (Hkeep "echo") as (d1 & Hd1 & He); [discriminate|].
    destruct (Hkeep "in_stream") as (d2 & Hd2 & Hi); [discriminate|].
    exists d. rewrite Hd in Hd1, Hd2. injection Hd1 as <-. injection Hd2 as <-.
    split_and!; [exact Hd | rewrite Ht | rewrite He | rewrite Hi]; reflexivity.
Defined.

Lemma node_teardown_heap request l (w : World) :
  heap (node_teardown request l w).2 = heap w.
Proof.
  unfold node_teardown.
  destruct (keep_vms request); [reflexivity|]. cbn [negb].
  destruct (key l) as [k|]; [|reflexivity].
  unfold ret at 1. unfold bind at 1.
  destruct (truthy k); [|reflexivity].
  unfold bind at 1.
  pose proof (delete_vm_step (name l) w) as (_ & _ & Hh & _).
  destruct (delete_vm (name l) w) as [[e|[]] w1]; cbn [snd] in *; [exact Hh|].
  destruct (cache w1) as [c|] eqn:Hc1.
  - rewrite (bind_inr _ _ _ _ _ (assert_cache_some w1 c Hc1)).
    rewrite (cache_set_some w1 c _ _ Hc1). exact Hh.
  - unfold bind, assert_cache. rewrite Hc1. exact Hh.
Qed.

(** X15.  The shape of [config] that the fixture relies on (a dictionary
    whose ["run"] entry is a dictionary) holds once the module is loaded
    and is kept by the setup and by the clean-up, also when they raise; the
    clean-up does not touch the dictionaries at all. *)
Theorem config_shape_invariant (request : FixtureRequest) (l : locals) (w : World) :
  (heap w = module_heap -> config_ok w)
  /\ (config_ok w ->
      config_ok (node_setup request w).2
      /\ config_ok (node_teardown request l w).2)
  /\ heap (node_teardown request l w).2 = heap w.
Proof.
  split_and!; [apply config_ok_module | | apply node_teardown_heap].
  intros Hok. split.
  - by apply node_setup_config_ok.
  - by apply node_teardown_config_ok.
Qed.

Lemma config_shape_invariant_witness :
  config_ok sample_world
  /\ config_ok (node_setup (mkRequest (Some sample_deploy) None false) sample_world).2
  /\ config_ok (node_teardown (mkRequest (Some sample_deploy) None false)
                  (mkLocals (Some "node/UbuntuLTS/SRIOV") "pytest-a") sample_world).2.
Proof.
  destruct (config_shape_invariant (mkRequest (Some sample_deploy) None false)
              (mkLocals (Some "node/UbuntuLTS/SRIOV") "pytest-a") sample_world)
    as (Hinit & Hkeep & _).
  split; [apply Hinit; reflexivity|].
  apply Hkeep. apply Hinit. reflexivity.
Defined.

(** ** Local commands: failures and restarts *)

(** X16.  How [Node.local] ends.  A caller's own [env] or [replace_env],
    more than one positional argument, or no command at all, is a
    [TypeError] and no command is run.  With one command and at most the
    keyword [warn], the command is run once: if it succeeds its result is
    returned; if it fails, [UnexpectedExit] is raised, unless the caller
    passed a true [warn], in which case the failed result is returned. *)
Theorem local_outcomes
    (self : Node.t) (args : list string) (kw : run_kwargs) (w : World) :
  let w0 := set_heap (heap w ++ [∅]) w in
  let kw' := ("replace_env", VBool false) :: ("env", VRef (length (heap w))) :: kw in
  ((assoc "env" kw <> None \/ assoc "replace_env" kw <> None \/ 1 < length args
    \/ (args = [] /\ assoc "command" kw = None)) ->
   Node.local self args kw w = (inl TypeError, w0))
  /\ (forall command,
        args = [command] -> Forall (fun k => k = "warn") (map fst kw) ->
        let c := cloud w (trace w) command kw' in
        trace (Node.local self args kw w).2 = trace w ++ [Run command kw']
        /\ (ok (result c) = true -> (Node.local self args kw w).1 = inr (result c))
        /\ (ok (result c) = false ->
            (forall v, assoc "warn" kw = Some v -> py_truthy (heap w0) v = false) ->
            (Node.local self args kw w).1 = inl (UnexpectedExit command))
        /\ (forall v, assoc "warn" kw = Some v -> py_truthy (heap w0) v = true ->
                      (Node.local self args kw w).1 = inr (result c))).
Proof.
  cbv zeta. split.
  - intros Hbad. rewrite local_eq. cbv zeta. unfold Node.bind_run.
    destruct (assoc "replace_env" kw), (assoc "env" kw), args as [|c [|c' args]],
      (assoc "command" kw) as [[| | |cmd|]|]; try reflexivity;
      (destruct Hbad as [?|[?|[Hlen|[? ?]]]]; try congruence; cbn in Hlen; lia).
  - intros command -> Hkw. rewrite local_warn_only by exact Hkw.
    split; [rewrite Context_run_world; reflexivity|].
    unfold Context_run. cbn [assoc String.eqb Ascii.eqb Bool.eqb trace heap cloud set_heap].
    split_and!.
    + intros ->. reflexivity.
    + intros -> Hw. destruct (assoc "warn" kw) as [v|]; [|reflexivity].
      rewrite (Hw v eq_refl). reflexivity.
    + intros v -> ->. rewrite orb_true_r. reflexivity.
Qed.

Lemma local_outcomes_witness :
  (Node.local sample_node ["uname"] [("env", VNone)] down_world).1 = inl TypeError
  /\ (Node.local sample_node ["uname"] [] down_world).1 = inl (UnexpectedExit "uname")
  /\ (Node.local sample_node ["uname"] [("warn", VBool true)] down_world).1
     = inr (mkResult false "" None).
Proof.
  split_and!.
  - rewrite (proj1 (local_outcomes sample_node ["uname"] [("env", VNone)] down_world));
      [reflexivity | left; discriminate].
  - apply (proj2 (local_outcomes sample_node ["uname"] [] down_world) "uname");
      [reflexivity | constructor | reflexivity | discriminate].
  - apply (proj2 (local_outcomes sample_node ["uname"] [("warn", VBool true)] down_world)
             "uname" eq_refl ltac:(repeat constructor))
      with (v := VBool true); reflexivity.
Defined.

(** ** The attempts of the boot diagnostics *)

Lemma get_boot_log_world (self : Node.t) (w : World) :
  let command := "az vm boot-diagnostics get-boot-log -n " +:+ Node.name self
                   +:+ " -g " +:+ Node.name self +:+ "-rg" in
  let kw := [("replace_env", VBool false); ("env", VRef (length (heap w)))] in
  trace (Node.get_boot_log self w).2 = trace w ++ [Run command kw]
  /\ heap (Node.get_boot_log self w).2 = heap w ++ [∅].
Proof.
  cbv zeta. unfold Node.get_boot_log. rewrite local_one.
  rewrite Context_run_world. split; reflexivity.
Qed.

Lemma retry_loop_attempts (self : Node.t) (wait : nat -> N) (stop : N -> bool) (start : N) :
  let command := "az vm boot-diagnostics get-boot-log -n " +:+ Node.name self
                   +:+ " -g " +:+ Node.name self +:+ "-rg" in
  forall fuel k w r w',
    retry_loop fuel wait stop (Node.get_boot_log self) start k w = Some (r, w') ->
    exists evs,
      trace w' = trace w ++ evs
      /\ 1 <= length evs <= fuel
      /\ Forall (fun ev => exists e,
                   ev = Run command [("replace_env", VBool false); ("env", VRef e)]) evs
      /\ length (heap w') = length (heap w) + length evs.
Proof.
  intros command. induction fuel as [|fuel IH]; intros k w r w'; [discriminate|].
  cbn [retry_loop].
  destruct (get_boot_log_world self w) as [Ht Hh]. fold command in Ht.
  destruct (Node.get_boot_log self w) as [[e|a] w1] eqn:Hfn; cbn [snd] in Ht, Hh.
  - destruct (stop (now w1 - start)%N).
    + intros [= <- <-]. eexists [_]. split_and!; [exact Ht | cbn; lia | cbn; lia | |].
      * repeat constructor. eauto.
      * rewrite Hh, length_app. reflexivity.
    + intros Hrec. apply IH in Hrec as (evs & Ht' & Hlen & Hall & Hh').
      cbn [sleep snd trace heap set_now] in Ht', Hh'.
      eexists (_ :: evs). split_and!.
      * rewrite Ht', Ht, <- app_assoc. reflexivity.
      * cbn. lia.
      * cbn. lia.
      * constructor; [eauto | exact Hall].
      * rewrite Hh', Hh, length_app. cbn. lia.
  - intros [= <- <-]. eexists [_]. split_and!; [exact Ht | cbn; lia | cbn; lia | |].
    + repeat constructor. eauto.
    + rewrite Hh, length_app. reflexivity.
Qed.

(** X17.  Whatever [get_boot_diagnostics] ends with, it has run between one
    and seven commands, each of them the same boot-log query for the node's
    VM and resource group, each with [replace_env=False] and an empty
    environment of its own. *)
Theorem boot_diagnostics_attempts
    (self : Node.t) (fuel : nat) (w w' : World) (r : exn + Result) :
  let command := "az vm boot-diagnostics get-boot-log -n " +:+ Node.name self
                   +:+ " -g " +:+ Node.name self +:+ "-rg" in
  Node.get_boot_diagnostics fuel self w = Some (r, w') ->
  exists evs,
    trace w' = trace w ++ evs
    /\ 1 <= length evs <= 7
    /\ Forall (fun ev => exists e,
                 ev = Run command [("replace_env", VBool false); ("env", VRef e)]) evs
    /\ length (heap w') = length (heap w) + length evs.
Proof.
  intros command Hfuel.
  destruct (retry_loop_terminates (Node.get_boot_log self) (now w)
              (get_boot_log_clock self) 6 1 w 7) as [out Hout]; try lia.
  { cbn. lia. }
  unfold Node.get_boot_diagnostics, retry in Hfuel.
  assert (Hsame : out = (r, w')).
  { destruct (Nat.le_ge_cases fuel 7) as [Hle|Hge].
    - pose proof (retry_loop_fuel_mono _ _ _ _ _ _ _ _ _ Hle Hfuel) as H. congruence.
    - pose proof (retry_loop_fuel_mono _ _ _ _ _ _ _ _ _ Hge Hout) as H. congruence. }
  subst out.
  destruct (retry_loop_attempts self _ _ _ _ _ _ _ _ Hout) as (evs & Ht & Hlen & Hall & Hh).
  exists evs. auto.
Qed.

Lemma boot_diagnostics_attempts_witness :
  exists w3 evs,
    Node.get_boot_diagnostics 7 sample_node flaky_world
    = Some (inr (mkResult true "boot log" None), w3)
    /\ trace w3 = trace flaky_world ++ evs
    /\ 1 <= length evs <= 7.
Proof.
  assert (E : exists w3, Node.get_boot_diagnostics 7 sample_node flaky_world
                         = Some (inr (mkResult true "boot log" None), w3))
    by (eexists; vm_compute; reflexivity).
  destruct E as [w3 E].
  destruct (boot_diagnostics_attempts sample_node 7 flaky_world w3 _ E)
    as (evs & Ht & Hlen & _).
  exists w3, evs. split_and!; [exact E | exact Ht | apply Hlen | apply Hlen].
Defined.

(** ** Reading a remote file: failures and the shape of the result *)

Lemma cont_in_Some (lo hi : N) (b : Byte.byte) (c : N) :
  cont_in lo hi b = Some c ->
  (lo <= Byte.to_N b <= hi /\ c = Byte.to_N b - 128)%N.
Proof.
  unfold cont_in.
  destruct ((lo <=? Byte.to_N b)%N && (Byte.to_N b <=? hi)%N) eqn:H; [|discriminate].
  apply andb_prop in H as [H1%N.leb_le H2%N.leb_le].
  intros [= <-]. auto.
Qed.

(** Bytes that no UTF-8 text contains. *)
Lemma utf8_decode_bytes (n : nat) :
  forall bs t,
    length bs <= n ->
    utf8_decode bs = Some t ->
    Forall (fun b => (Byte.to_N b <> 192 /\ Byte.to_N b <> 193 /\ Byte.to_N b < 245)%N) bs.
Proof.
  induction n as [|n IH]; intros bs t Hlen.
  - destruct bs; [|cbn in Hlen; lia]. constructor.
  - destruct bs as [|b0 r0]; [constructor|].
    cbn [utf8_decode]. cbn [length] in Hlen.
    set (n0 := Byte.to_N b0).
    destruct (n0 <? 128)%N eqn:H128.
    { apply N.ltb_lt in H128.
      intros (t' & Ht' & ->)%fmap_Some.
      constructor; [fold n0; lia | apply (IH r0 t'); [lia | exact Ht']]. }
    destruct ((194 <=? n0)%N && (n0 <=? 223)%N) eqn:H2.
    { apply andb_prop in H2 as [Ha%N.leb_le Hb%N.leb_le].
      destruct r0 as [|b1 r1]; [discriminate|].
      unfold cont. destruct (cont_in 128 191 b1) as [c1|] eqn:Hc1; [|discriminate].
      apply cont_in_Some in Hc1 as [Hr1 ->].
      intros (t' & Ht' & ->)%fmap_Some.
      repeat (constructor; [try fold n0; lia|]).
      apply (IH r1 t'); [cbn in Hlen; lia | exact Ht']. }
    destruct ((224 <=? n0)%N && (n0 <=? 239)%N) eqn:H3.
    { apply andb_prop in H3 as [Ha%N.leb_le Hb%N.leb_le].
      destruct r0 as [|b1 [|b2 r2]]; try discriminate.
      destruct (cont_in _ _ b1) as [c1|] eqn:Hc1; [|discriminate].
      unfold cont. destruct (cont_in 128 191 b2) as [c2|] eqn:Hc2; [|discriminate].
      apply cont_in_Some in Hc1 as [Hr1 ->].
      apply cont_in_Some in Hc2 as [Hr2 ->].
      intros (t' & Ht' & ->)%fmap_Some.
      revert Hr1. destruct (N.eqb_spec n0 224), (N.eqb_spec n0 237); intros Hr1;
        (repeat (constructor; [try fold n0; lia|]));
        (apply (IH r2 t'); [cbn in Hlen; lia | exact Ht']). }
    destruct ((240 <=? n0)%N && (n0 <=? 244)%N) eqn:H4; [|discriminate].
    apply andb_prop in H4 as [Ha%N.leb_le Hb%N.leb_le].
    destruct r0 as [|b1 [|b2 [|b3 r3]]]; try discriminate.
    destruct (cont_in _ _ b1) as [c1|] eqn:Hc1; [|discriminate].
    unfold cont. destruct (cont_in 128 191 b2) as [c2|] eqn:Hc2; [|discriminate].
    destruct (cont_in 128 191 b3) as [c3|] eqn:Hc3; [|discriminate].
    apply cont_in_Some in Hc1 as [Hr1 ->].
    apply cont_in_Some in Hc2 as [Hr2 ->].
    apply cont_in_Some in Hc3 as [Hr3 ->].
    intros (t' & Ht' & ->)%fmap_Some.
    revert Hr1. destruct (N.eqb_spec n0 240), (N.eqb_spec n0 244); intros Hr1;
      (repeat (constructor; [try fold n0; lia|]));
      (apply (IH r3 t'); [cbn in Hlen; lia | exact Ht']).
Qed.

(** X18.  How [cat] fails.  A file that is not there makes it raise
    [FileNotFoundError] for the path.  A file that holds, anywhere, one of
    the bytes that no UTF-8 text contains (0xC0, 0xC1, 0xF5 to 0xFF) makes
    it raise [UnicodeDecodeError]: nothing is replaced or skipped. *)
Theorem cat_failures (self : Node.t) (path : string) (w : World) :
  (remote_files w !! (Node.host self, path) = None ->
   Node.cat self path w = (inl (FileNotFoundError path), w))
  /\ (forall content b,
        remote_files w !! (Node.host self, path) = Some content ->
        In b content ->
        (Byte.to_N b = 192 \/ Byte.to_N b = 193 \/ 245 <= Byte.to_N b)%N ->
        Node.cat self path w = (inl UnicodeDecodeError, w)).
Proof.
  unfold Node.cat, Node.get, bind. split.
  - intros ->. reflexivity.
  - intros content b -> Hin Hb. cbn [app].
    destruct (utf8_decode content) as [t|] eqn:Hd; [|reflexivity].
    pose proof (utf8_decode_bytes (length content) content t (le_n _) Hd) as Hall.
    rewrite List.Forall_forall in Hall. apply Hall in Hin. lia.
Qed.

Lemma cat_failures_witness :
  Node.cat sample_node "/etc/hostname" sample_world
  = (inl (FileNotFoundError "/etc/hostname"), sample_world)
  /\ (Node.cat sample_node "/bin/ls"
        (mkWorld sample_cloud [] None [] sample_uuids 0 0
           {[ ("198.51.100.7", "/bin/ls") := [Byte.x7f; Byte.x45; Byte.xff] ]} ∅)).1
     = inl UnicodeDecodeError.
Proof.
  split.
  - apply (proj1 (cat_failures sample_node "/etc/hostname" sample_world)).
    vm_compute. reflexivity.
  - rewrite (proj2 (cat_failures sample_node "/bin/ls" _)
               [Byte.x7f; Byte.x45; Byte.xff] Byte.xff);
      [reflexivity | vm_compute; reflexivity | cbn; tauto | cbn; lia].
Defined.

Section StripFixed.
Context {A : Type} (space : A -> bool).

Lemma lstrip_by_fixed (l : list A) :
  (forall c, head l = Some c -> space c = false) -> lstrip_by space l = l.
Proof.
  destruct l as [|c l]; [reflexivity|]. intros H. cbn [lstrip_by].
  rewrite (H c eq_refl). reflexivity.
Qed.

Lemma rstrip_by_fixed (l : list A) :
  (forall c, last l = Some c -> space c = false) -> rstrip_by space l = l.
Proof.
  intros H. unfold rstrip_by. rewrite lstrip_by_fixed; [apply rev_involutive|].
  intros c Hc. apply H. rewrite <- (rev_involutive l), last_rev_head. exact Hc.
Qed.

Lemma strip_by_idempotent (l : list A) :
  strip_by space (strip_by space l) = strip_by space l.
Proof.
  destruct (strip_by_spec space l) as (_ & Hhead & Hlast).
  unfold strip_by at 1.
  rewrite (lstrip_by_fixed _ Hhead). apply rstrip_by_fixed, Hlast.
Qed.

Lemma strip_by_all_space (l : list A) : forallb space l = true -> strip_by space l = [].
Proof.
  intros H. unfold strip_by.
  replace (lstrip_by space l) with (@nil A); [reflexivity|].
  induction l as [|c l IH]; [reflexivity|].
  cbn in H. apply andb_prop in H as [Hc Hl]. cbn [lstrip_by]. rewrite Hc. auto.
Qed.
End StripFixed.

(** X19.  What [cat] returns is stripped for good: stripping it again gives
    the same text.  A file of white space only (or an empty file) gives the
    empty text. *)
Theorem cat_result_is_stripped
    (self : Node.t) (path : string) (w w' : World) (t : text) :
  Node.cat self path w = (inr t, w') ->
  strip t = t
  /\ (forall content s,
        remote_files w !! (Node.host self, path) = Some content ->
        utf8_decode content = Some s ->
        forallb is_space s = true -> t = []).
Proof.
  unfold Node.cat, Node.get, bind.
  destruct (remote_files w !! _) as [content|]; [|discriminate].
  cbn [app]. destruct (utf8_decode content) as [s|] eqn:Hd; [|discriminate].
  intros [= <- <-]. split.
  - apply strip_by_idempotent.
  - intros content' s' [= <-] Hd' Hs.
    assert (s' = s) as -> by congruence. by apply strip_by_all_space.
Qed.

Lemma cat_result_is_stripped_witness :
  strip [118; 109]%N = [118; 109]%N.
Proof.
  apply (cat_result_is_stripped
           (Node.mk "203.0.113.5" (VRef 2%nat) true "pre-deployed:203.0.113.5" ∅)
           "/etc/hostname" sample_world sample_world [118; 109]%N).
  vm_compute. reflexivity.
Defined.

(** ** Decoding *)

Lemma utf8_decode_ascii_bytes (content : list Byte.byte) :
  Forall (fun b => (Byte.to_N b < 128)%N) content ->
  utf8_decode content = Some (map Byte.to_N content).
Proof.
  induction 1 as [|b content Hb _ IH]; [reflexivity|].
  cbn [utf8_decode map]. rewrite (proj2 (N.ltb_lt _ _) Hb), IH. reflexivity.
Qed.

(** X20.  On a file of ASCII bytes [cat] cannot fail to decode: it returns
    the bytes, as code points, stripped at both ends. *)
Theorem cat_ascii
    (self : Node.t) (path : string) (w : World) (content : list Byte.byte) :
  remote_files w !! (Node.host self, path) = Some content ->
  Forall (fun b => (Byte.to_N b < 128)%N) content ->
  Node.cat self path w = (inr (strip (map Byte.to_N content)), w).
Proof.
  intros Hf Hascii. unfold Node.cat, Node.get, bind. rewrite Hf. cbn [app].
  rewrite (utf8_decode_ascii_bytes content Hascii). reflexivity.
Qed.

Lemma cat_ascii_witness :
  Node.cat (Node.mk "203.0.113.5" (VRef 2%nat) true "pre-deployed:203.0.113.5" ∅)
    "/etc/hostname" sample_world
  = (inr (strip (map Byte.to_N [Byte.x20; Byte.x76; Byte.x6d; Byte.x0a])), sample_world).
Proof.
  apply (cat_ascii _ "/etc/hostname" sample_world).
  - vm_compute. reflexivity.
  - repeat constructor.
Defined.

(** Strict decoding gives Unicode scalar values only (nothing above
    U+10FFFF, no surrogates), and never more code points than bytes. *)
Lemma utf8_decode_scalar (n : nat) :
  forall bs t,
    length bs <= n ->
    utf8_decode bs = Some t ->
    Forall (fun c => (c < 1114112 /\ (c < 55296 \/ 57343 < c))%N) t
    /\ length t <= length bs.
Proof.
  induction n as [|n IH]; intros bs t Hlen.
  - destruct bs; [|cbn in Hlen; lia]. intros [= <-]. split; [constructor | cbn; lia].
  - destruct bs as [|b0 r0]; [intros [= <-]; split; [constructor | cbn; lia]|].
    cbn [utf8_decode]. cbn [length] in Hlen.
    set (n0 := Byte.to_N b0).
    destruct (n0 <? 128)%N eqn:H128.
    { apply N.ltb_lt in H128.
      intros (t' & Ht' & ->)%fmap_Some.
      destruct (IH r0 t') as [Hall Hl]; [lia | exact Ht' |].
      split; [constructor; [lia | exact Hall] | cbn; lia]. }
    destruct ((194 <=? n0)%N && (n0 <=? 223)%N) eqn:H2.
    { apply andb_prop in H2 as [Ha%N.leb_le Hb%N.leb_le].
      destruct r0 as [|b1 r1]; [discriminate|].
      unfold cont. destruct (cont_in 128 191 b1) as [c1|] eqn:Hc1; [|discriminate].
      apply cont_in_Some in Hc1 as [Hr1 ->].
      intros (t' & Ht' & ->)%fmap_Some.
      destruct (IH r1 t') as [Hall Hl]; [cbn in Hlen; lia | exact Ht' |].
      split; [constructor; [lia | exact Hall] | cbn; lia]. }
    destruct ((224 <=? n0)%N && (n0 <=? 239)%N) eqn:H3.
    { apply andb_prop in H3 as [Ha%N.leb_le Hb%N.leb_le].
      destruct r0 as [|b1 [|b2 r2]]; try discriminate.
      destruct (cont_in _ _ b1) as [c1|] eqn:Hc1; [|discriminate].
      unfold cont. destruct (cont_in 128 191 b2) as [c2|] eqn:Hc2; [|discriminate].
      apply cont_in_Some in Hc1 as [Hr1 ->].
      apply cont_in_Some in Hc2 as [Hr2 ->].
      intros (t' & Ht' & ->)%fmap_Some.
      destruct (IH r2 t') as [Hall Hl]; [cbn in Hlen; lia | exact Ht' |].
      split; [constructor; [|exact Hall] | cbn; lia].
      revert Hr1.
      destruct (N.eqb_spec n0 224), (N.eqb_spec n0 237); lia. }
    destruct ((240 <=? n0)%N && (n0 <=? 244)%N) eqn:H4; [|discriminate].
    apply andb_prop in H4 as [Ha%N.leb_le Hb%N.leb_le].
    destruct r0 as [|b1 [|b2 [|b3 r3]]]; try discriminate.
    destruct (cont_in _ _ b1) as [c1|] eqn:Hc1; [|discriminate].
    unfold cont. destruct (cont_in 128 191 b2) as [c2|] eqn:Hc2; [|discriminate].
    destruct (cont_in 128 191 b3) as [c3|] eqn:Hc3; [|discriminate].
    apply cont_in_Some in Hc1 as [Hr1 ->].
    apply cont_in_Some in Hc2 as [Hr2 ->].
    apply cont_in_Some in Hc3 as [Hr3 ->].
    intros (t' & Ht' & ->)%fmap_Some.
    destruct (IH r3 t') as [Hall Hl]; [cbn in Hlen; lia | exact Ht' |].
    split; [constructor; [|exact Hall] | cbn; lia].
    revert Hr1.
    destruct (N.eqb_spec n0 240), (N.eqb_spec n0 244); lia.
Qed.

(** X21.  Every code point of the text that [cat] returns is a Unicode
    scalar value (at most U+10FFFF and no surrogate), and the text has no
    more code points than the file has bytes. *)
Theorem cat_scalar_values
    (self : Node.t) (path : string) (w w' : World) (t : text) :
  Node.cat self path w = (inr t, w') ->
  Forall (fun c => (c < 1114112 /\ (c < 55296 \/ 57343 < c))%N) t
  /\ exists content,
       remote_files w !! (Node.host self, path) = Some content
       /\ length t <= length content.
Proof.
  unfold Node.cat, Node.get, bind.
  destruct (remote_files w !! _) as [content|]; [|discriminate].
  cbn [app]. destruct (utf8_decode content) as [s|] eqn:Hd; [|discriminate].
  intros [= <- <-].
  destruct (utf8_decode_scalar (length content) content s (le_n _) Hd) as [Hall Hlen].
  destruct (strip_by_spec is_space s) as ((pre & suf & Hs & _) & _).
  fold (strip s) in Hs.
  split.
  - rewrite Hs in Hall. apply Forall_app in Hall as [_ Hall].
    apply Forall_app in Hall as [Hall _]. exact Hall.
  - exists content. split; [reflexivity|].
    assert (length (strip s) <= length s)
      by (rewrite Hs at 2; rewrite !length_app; lia).
    lia.
Qed.

Lemma cat_scalar_values_witness :
  Forall (fun c => (c < 1114112 /\ (c < 55296 \/ 57343 < c))%N) [118; 109]%N.
Proof.
  apply (cat_scalar_values
           (Node.mk "203.0.113.5" (VRef 2%nat) true "pre-deployed:203.0.113.5" ∅)
           "/etc/hostname" sample_world sample_world [118; 109]%N).
  vm_compute. reflexivity.
Defined.
